(** * ctrip_comment_spider: the paginated retrieval loop and the item parser

    A shallow embedding of [src/ctrip_comment_spider.py]:
    - the Python values that [response.json()] produces, with the handful of
      dynamic operations the spider applies to them ([.get], truthiness,
      [in], [len], [str.join], [str.split], iteration);
    - [CtripCommentSpider._parse_comment], with its inner and outer [try];
    - [CtripCommentSpider.fetch_comments] as one loop iteration per fetch
      outcome, the outcomes being supplied by a script that plays the remote
      service;
    - the column selection of [CtripCommentSpider.save_to_csv].

    Conventions.
    - A [string] is a sequence of characters, one [ascii] per Python
      character.  The Chinese literals of the source are written by their
      UTF-8 bytes and are only ever used as whole constants (dictionary keys
      and defaults).
    - The run is modelled for a [poi_id] that is a decimal numeral, so that
      [_build_request_data] does not raise, and for a [delay_range] accepted
      by [random.uniform] and [time.sleep]. *)

From Stdlib Require Import ZArith List String Ascii Bool Lia.
Import ListNotations.
Open Scope string_scope.
Open Scope list_scope.
Open Scope Z_scope.

#[local] Set Warnings "-register-all".

(** ** Python values *)

Module Py.

(** What [json.loads] can return.  A float is kept as a decimal
    [mantissa * 10 ^ exponent]; only its being zero or not matters here. *)
Inductive value : Type :=
| JNull
| JBool (b : bool)
| JInt (z : Z)
| JFloat (mantissa exponent : Z)
| JStr (s : string)
| JList (l : list value)
| JDict (d : list (string * value)).

(** The result of an expression that may raise.  Every exception raised by
    the operations below is an [AttributeError] or a [TypeError]; the code
    only ever catches them with [except Exception], so one constructor is
    enough. *)
Inductive res (A : Type) : Type :=
| Ok (a : A)
| Raise.
Arguments Ok {A} a.
Arguments Raise {A}.

Definition bind {A B} (m : res A) (k : A -> res B) : res B :=
  match m with
  | Ok a => k a
  | Raise => Raise
  end.

(** [try: x = e  except Exception: x = d] *)
Definition try_default {A} (m : res A) (d : A) : A :=
  match m with
  | Ok a => a
  | Raise => d
  end.

(** [bool(v)] *)
Definition truthy (v : value) : bool :=
  match v with
  | JNull => false
  | JBool b => b
  | JInt z => negb (z =? 0)
  | JFloat m _ => negb (m =? 0)
  | JStr s => negb (String.eqb s "")
  | JList l => match l with [] => false | _ :: _ => true end
  | JDict d => match d with [] => false | _ :: _ => true end
  end.

(** [v == 0] *)
Definition eq_zero (v : value) : bool :=
  match v with
  | JBool b => negb b
  | JInt z => z =? 0
  | JFloat m _ => m =? 0
  | _ => false
  end.

Fixpoint lookup (d : list (string * value)) (k : string) : option value :=
  match d with
  | [] => None
  | (k', v) :: d' => if String.eqb k' k then Some v else lookup d' k
  end.

(** [d.get(k, default)] on a dict. *)
Definition get_or (d : list (string * value)) (k : string) (default : value)
  : value :=
  match lookup d k with
  | Some v => v
  | None => default
  end.

(** [obj.get(k, default)]: only a dict has [.get]. *)
Definition get (obj : value) (k : string) (default : value) : res value :=
  match obj with
  | JDict d => Ok (get_or d k default)
  | _ => Raise
  end.

(** [d[k] = v] on a dict kept in insertion order. *)
Fixpoint set (d : list (string * value)) (k : string) (v : value)
  : list (string * value) :=
  match d with
  | [] => [(k, v)]
  | (k', v') :: d' =>
      if String.eqb k' k then (k', v) :: d' else (k', v') :: set d' k v
  end.

Definition keys (d : list (string * value)) : list string := map fst d.

(** The characters of a string, each as a one-character string. *)
Fixpoint chars (s : string) : list string :=
  match s with
  | EmptyString => []
  | String c s' => String c EmptyString :: chars s'
  end.

(** [s.split(' ')[0]]: the characters before the first space. *)
Fixpoint before_space (s : string) : string :=
  match s with
  | EmptyString => EmptyString
  | String c s' =>
      if Ascii.eqb c " "%char then EmptyString else String c (before_space s')
  end.

Definition split_first (v : value) : res value :=
  match v with
  | JStr s => Ok (JStr (before_space s))
  | _ => Raise
  end.

(** The elements of a list when all of them are [str]; [str.join] raises
    [TypeError] on the first one that is not. *)
Fixpoint all_str (l : list value) : res (list string) :=
  match l with
  | [] => Ok []
  | JStr s :: l' => bind (all_str l') (fun r => Ok (s :: r))
  | _ :: _ => Raise
  end.

(** [sep.join(v)]: a str is joined character by character, a dict by its
    keys, a list when every element is a str. *)
Definition join (sep : string) (v : value) : res string :=
  match v with
  | JStr s => Ok (String.concat sep (chars s))
  | JList l => bind (all_str l) (fun r => Ok (String.concat sep r))
  | JDict d => Ok (String.concat sep (keys d))
  | _ => Raise
  end.

(** [len(v)] *)
Definition len (v : value) : res Z :=
  match v with
  | JStr s => Ok (Z.of_nat (String.length s))
  | JList l => Ok (Z.of_nat (List.length l))
  | JDict d => Ok (Z.of_nat (List.length d))
  | _ => Raise
  end.

(** [for x in v]: the elements visited. *)
Definition iter (v : value) : res (list value) :=
  match v with
  | JStr s => Ok (map JStr (chars s))
  | JList l => Ok l
  | JDict d => Ok (map JStr (keys d))
  | _ => Raise
  end.

Fixpoint is_prefix (p s : string) : bool :=
  match p, s with
  | EmptyString, _ => true
  | String a p', String b s' => Ascii.eqb a b && is_prefix p' s'
  | String _ _, EmptyString => false
  end.

Fixpoint is_substring (p s : string) : bool :=
  is_prefix p s ||
  match s with
  | EmptyString => false
  | String _ s' => is_substring p s'
  end.

Definition is_str (k : string) (v : value) : bool :=
  match v with
  | JStr s => String.eqb s k
  | _ => false
  end.

(** [k in v] for a str [k]: key test on a dict, membership on a list,
    substring test on a str, [TypeError] otherwise. *)
Definition contains (k : string) (v : value) : res bool :=
  match v with
  | JDict d => Ok (match lookup d k with Some _ => true | None => false end)
  | JList l => Ok (existsb (is_str k) l)
  | JStr s => Ok (is_substring k s)
  | _ => Raise
  end.

End Py.

Import Py.

Notation "x <- m ;; k" := (bind m (fun x => k))
  (at level 61, m at next level, right associativity).

(** ** [_parse_comment] *)

(** A parsed comment is a Python dict; its keys are listed in insertion
    order. *)
Definition comment : Type := list (string * value).

Definition k_user : string := "用户名".
Definition k_time : string := "评论时间".
Definition k_content : string := "评论内容".
Definition k_ip : string := "IP属地".
Definition k_score : string := "评分".
Definition k_tags : string := "推荐标签".
Definition k_useful : string := "点赞数".
Definition k_id : string := "评论ID".
Definition k_images : string := "图片数量".
Definition k_reply : string := "回复数".
Definition k_identity : string := "用户身份".

Definition anonymous : value := JStr "匿名".

(** [user_info.get(key, default) if user_info else default], after
    [user_info = item.get("userInfo", {})]. *)
Definition user_field (item : value) (key : string) (default : value)
  : res value :=
  user_info <- get item "userInfo" (JDict []) ;;
  if truthy user_info then get user_info key default else Ok default.

(** [publish_tag.split(' ')[0] if publish_tag else ""] *)
Definition publish_date (item : value) : res value :=
  publish_tag <- get item "publishTypeTag" (JStr "") ;;
  if truthy publish_tag then split_first publish_tag else Ok (JStr "").

(** [",".join(recommend_items) if recommend_items else ""] *)
Definition recommend_tags (item : value) : res value :=
  recommend_items <- get item "recommendItems" (JList []) ;;
  if truthy recommend_items
  then s <- join "," recommend_items ;; Ok (JStr s)
  else Ok (JStr "").

(** [len(item.get("images", [])) if item.get("images") else 0] *)
Definition image_count (item : value) : res value :=
  images <- get item "images" JNull ;;
  if truthy images
  then images' <- get item "images" (JList []) ;;
       n <- len images' ;; Ok (JInt n)
  else Ok (JInt 0).

(** The body of the outer [try]; the three inner [try] blocks are the three
    [try_default]. *)
Definition parse_body (item : value) : res comment :=
  let comment := [] in
  let comment := set comment k_user
                   (try_default (user_field item "userNick" anonymous)
                      anonymous) in
  let comment := set comment k_time
                   (try_default (publish_date item) (JStr "")) in
  v <- get item "content" (JStr "") ;;
  let comment := set comment k_content v in
  v <- get item "ipLocatedName" (JStr "") ;;
  let comment := set comment k_ip v in
  v <- get item "score" (JStr "") ;;
  let comment := set comment k_score v in
  v <- recommend_tags item ;;
  let comment := set comment k_tags v in
  v <- get item "usefulCount" (JInt 0) ;;
  let comment := set comment k_useful v in
  v <- get item "commentId" (JStr "") ;;
  let comment := set comment k_id v in
  v <- image_count item ;;
  let comment := set comment k_images v in
  v <- get item "replyCount" (JInt 0) ;;
  let comment := set comment k_reply v in
  let comment := set comment k_identity
                   (try_default (user_field item "identitiesName" (JStr ""))
                      (JStr "")) in
  Ok comment.

(** [None] is the [return None] of the outer [except]. *)
Definition _parse_comment (item : value) : option comment :=
  match parse_body item with
  | Ok c => Some c
  | Raise => None
  end.

(** ** [fetch_comments] *)

(** *** Exceptions and the handler chain *)

(** The four classes named by the [except] clauses of [fetch_comments].  An
    exception is described by the classes it is an instance of: the class
    hierarchy of the [requests] library is not part of this repository, so
    it is left to the exception that the script raises. *)
Inductive exn_class : Type :=
| Timeout
| ConnectionError
| RequestException
| JSONDecodeError.

(** [isinstance(e, C)] *)
Definition exn : Type := exn_class -> bool.

(** An [AttributeError] or [TypeError] raised by the operations of [Py]. *)
Definition python_error : exn := fun _ => false.

Inductive handler : Type :=
| H_Timeout
| H_ConnectionError
| H_RequestException
| H_JSONDecodeError
| H_Exception.

(** The first matching clause, in the order of the source. *)
Definition handler_of (e : exn) : handler :=
  if e Timeout then H_Timeout
  else if e ConnectionError then H_ConnectionError
  else if e RequestException then H_RequestException
  else if e JSONDecodeError then H_JSONDecodeError
  else H_Exception.

(** *** What one page attempt can yield *)

(** [response.json()] *)
Inductive body : Type :=
| Decoded (result : value)
| DecodeRaises (e : exn).

(** [self.session.post(...)]; the body is only looked at when the status
    code is 200. *)
Inductive outcome : Type :=
| PostRaises (e : exn)
| Response (status_code : Z) (json : body).

(** *** The state of a run *)

Inductive delay : Type :=
| Seconds (n : Z)
| Uniform_delay_range.

(** What the run does to the outside world, oldest first. *)
Inductive event : Type :=
| Request (page : Z)
| Sleep (d : delay).

(** The locals of [fetch_comments] and the two attributes it writes.
    [response_bound] tells whether the local [response] has been assigned;
    [trace] is a ghost field. *)
Record session : Type := mkSession {
  page : Z;
  total_count : Z;
  consecutive_empty : Z;
  comments_data : list comment;
  total_count_from_api : value;
  response_bound : bool;
  trace : list event
}.

Definition max_consecutive_empty : Z := 3.

(** A fresh spider entering [fetch_comments]. *)
Definition init : session :=
  mkSession 1 0 0 [] (JInt 0) false [].

Definition emit (ev : event) (s : session) : session :=
  mkSession (page s) (total_count s) (consecutive_empty s) (comments_data s)
    (total_count_from_api s) (response_bound s) (trace s ++ [ev]).

Definition bind_response (s : session) : session :=
  mkSession (page s) (total_count s) (consecutive_empty s) (comments_data s)
    (total_count_from_api s) true (trace s).

(** [consecutive_empty += 1] *)
Definition bump (s : session) : session :=
  mkSession (page s) (total_count s) (consecutive_empty s + 1)
    (comments_data s) (total_count_from_api s) (response_bound s) (trace s).

(** [consecutive_empty = 0] *)
Definition reset (s : session) : session :=
  mkSession (page s) (total_count s) 0 (comments_data s)
    (total_count_from_api s) (response_bound s) (trace s).

(** [page += 1] *)
Definition next_page (s : session) : session :=
  mkSession (page s + 1) (total_count s) (consecutive_empty s)
    (comments_data s) (total_count_from_api s) (response_bound s) (trace s).

(** [self.total_count_from_api = v] *)
Definition store_total (v : value) (s : session) : session :=
  mkSession (page s) (total_count s) (consecutive_empty s) (comments_data s)
    v (response_bound s) (trace s).

(** [self.comments_data.append(c); total_count += 1] *)
Definition append (c : comment) (s : session) : session :=
  mkSession (page s) (total_count s + 1) (consecutive_empty s)
    (comments_data s ++ [c]) (total_count_from_api s) (response_bound s)
    (trace s).

Definition sleep (d : delay) (s : session) : session := emit (Sleep d) s.

(** Why the loop was left. *)
Inductive stop : Type :=
| MaxPages          (* page > max_pages *)
| HttpFailures      (* status != 200, counter at the ceiling *)
| BadEnvelope       (* 'result' not in result *)
| NoComments        (* page 1 reports totalCount == 0: return 0 *)
| EmptyPage         (* not items *)
| RequestFailures   (* RequestException, counter at the ceiling *)
| DecodeFailure     (* except json.JSONDecodeError *)
| UnknownError      (* except Exception *)
| Propagated.       (* an exception raised inside a handler leaves the call *)

Inductive control : Type :=
| Continue (s : session)
| Break (why : stop) (s : session).

(** The [except] clauses.  The [json.JSONDecodeError] clause reads
    [response.text]; when [response] was never assigned that raises
    [UnboundLocalError] out of the handler. *)
Definition except (s : session) (e : exn) : control :=
  match handler_of e with
  | H_Timeout => Continue (sleep (Seconds 5) s)
  | H_ConnectionError => Continue (sleep (Seconds 10) s)
  | H_RequestException =>
      let s := bump s in
      if consecutive_empty s >=? max_consecutive_empty
      then Break RequestFailures s
      else Continue (sleep (Seconds 5) s)
  | H_JSONDecodeError =>
      if response_bound s then Break DecodeFailure s else Break Propagated s
  | H_Exception => Break UnknownError s
  end.

(** [comment = self._parse_comment(item); if comment: ...] *)
Definition add_item (s : session) (item : value) : session :=
  match _parse_comment item with
  | Some ((_ :: _) as c) => append c s
  | Some [] => s
  | None => s
  end.

(** The [for item in items] loop. *)
Definition add_items (s : session) (items : list value) : session :=
  fold_left add_item items s.

(** [result.get('result', {})], then [items] and [totalCount] out of it. *)
Definition envelope (result : value) : res (value * value) :=
  result_data <- get result "result" (JDict []) ;;
  items <- get result_data "items" (JList []) ;;
  total <- get result_data "totalCount" (JInt 0) ;;
  Ok (items, total).

(** From [self.total_count_from_api = ...] to the end of the [try] body. *)
Definition on_page (s : session) (items total : value) : control :=
  let s := store_total total s in
  if (page s =? 1) && eq_zero (total_count_from_api s) then Break NoComments s
  else if negb (truthy items) then Break EmptyPage s
  else
    match iter items with
    | Raise => except s python_error
    | Ok l =>
        let s := add_items s l in
        let s := reset s in
        let s := next_page s in
        Continue (sleep Uniform_delay_range s)
    end.

(** The [try] body after [result = response.json()]. *)
Definition on_result (s : session) (result : value) : control :=
  match contains "result" result with
  | Raise => except s python_error
  | Ok false => Break BadEnvelope s
  | Ok true =>
      match envelope result with
      | Raise => except s python_error
      | Ok (items, total) => on_page s items total
      end
  end.

(** One pass through the [while True] body, past the page-limit test. *)
Definition iteration (s : session) (o : outcome) : control :=
  let s := emit (Request (page s)) s in
  match o with
  | PostRaises e => except s e
  | Response status_code json =>
      let s := bind_response s in
      if negb (status_code =? 200) then
        let s := bump s in
        if consecutive_empty s >=? max_consecutive_empty
        then Break HttpFailures s
        else
          let s := next_page s in
          Continue (sleep (Seconds 3) s)
      else
        match json with
        | DecodeRaises e => except s e
        | Decoded result => on_result s result
        end
  end.

(** [max_pages and page > max_pages] *)
Definition limit_reached (max_pages : option Z) (s : session) : bool :=
  match max_pages with
  | None => false
  | Some m => negb (m =? 0) && (m <? page s)
  end.

(** A run against a finite script of outcomes: [Pending] when the script
    is used up and the loop is about to post the next request. *)
Inductive result : Type :=
| Pending (s : session)
| Finished (why : stop) (s : session).

Fixpoint fetch_comments_from (max_pages : option Z) (s : session)
  (script : list outcome) : result :=
  if limit_reached max_pages s then Finished MaxPages s
  else
    match script with
    | [] => Pending s
    | o :: script' =>
        match iteration s o with
        | Continue s' => fetch_comments_from max_pages s' script'
        | Break why s' => Finished why s'
        end
    end.

Definition fetch_comments (max_pages : option Z) (script : list outcome)
  : result :=
  fetch_comments_from max_pages init script.

(** What [fetch_comments] returns; [None] when an exception leaves it. *)
Definition returned (why : stop) (s : session) : option Z :=
  match why with
  | NoComments => Some 0
  | Propagated => None
  | _ => Some (total_count s)
  end.

Definition final (r : result) : session :=
  match r with
  | Pending s => s
  | Finished _ s => s
  end.

(** The pages requested so far, in order. *)
Fixpoint requested (t : list event) : list Z :=
  match t with
  | [] => []
  | Request p :: t' => p :: requested t'
  | Sleep _ :: t' => requested t'
  end.

Definition requests (s : session) : nat := List.length (requested (trace s)).

(** ** [save_to_csv] *)

Definition columns_order : list string :=
  [k_user; k_time; k_score; k_content; k_ip; k_tags; k_useful; k_reply;
   k_images; k_identity; k_id].

Definition mem (k : string) (l : list string) : bool :=
  existsb (String.eqb k) l.

(** [pd.DataFrame(records).columns]: every key of every record, in order
    of first appearance. *)
Definition df_columns (records : list comment) : list string :=
  fold_left
    (fun cols rec =>
       fold_left (fun cols k => if mem k cols then cols else cols ++ [k])
         (keys rec) cols)
    records [].

(** [[col for col in columns_order if col in df.columns]] *)
Definition existing_columns (records : list comment) : list string :=
  filter (fun col => mem col (df_columns records)) columns_order.

(** The header that [save_to_csv] writes: [None] is the early
    [return ""] on an empty collection.  Writing the file itself is outside
    the model. *)
Definition save_to_csv (records : list comment) : option (list string) :=
  match records with
  | [] => None
  | _ :: _ => Some (existing_columns records)
  end.

(** ** Auxiliary definitions for the statements *)

Definition session_of (c : control) : session :=
  match c with
  | Continue s => s
  | Break _ s => s
  end.

(** The records that a page's items contribute, in order. *)
Definition parsed (items : list value) : list comment :=
  flat_map
    (fun item =>
       match _parse_comment item with
       | Some ((_ :: _) as c) => [c]
       | _ => []
       end)
    items.

(** What holds of every session a fresh run can be in. *)
Record reachable (s : session) : Prop := mkReachable {
  page_pos : 1 <= page s;
  first_page_empty : page s = 1 -> comments_data s = [];
  count_is_length : total_count s = Z.of_nat (List.length (comments_data s));
  counter_range : 0 <= consecutive_empty s < max_consecutive_empty
}.

(** The keys of a parsed comment, in the order [_parse_comment] inserts
    them. *)
Definition comment_keys : list string :=
  [k_user; k_time; k_content; k_ip; k_score; k_tags; k_useful; k_id;
   k_images; k_reply; k_identity].

Definition complete (c : comment) : Prop := keys c = comment_keys.

(** *** Vocabulary for the parser statements *)

(** The author and the identity badge, read off the item directly: the
    value found under a non-empty [userInfo] mapping, the default in every
    other case. *)
Definition degraded_user_field (d : list (string * value)) (key : string)
  (default : value) : value :=
  match get_or d "userInfo" (JDict []) with
  | JDict ((_ :: _) as user_info) => get_or user_info key default
  | _ => default
  end.

(** The date, read off the item directly. *)
Definition degraded_date (d : list (string * value)) : value :=
  match get_or d "publishTypeTag" (JStr "") with
  | JStr s => JStr (before_space s)
  | _ => JStr ""
  end.

Definition is_a_str (v : value) : bool :=
  match v with
  | JStr _ => true
  | _ => false
  end.

(** A truthy value that [",".join] rejects. *)
Definition unjoinable (v : value) : bool :=
  match v with
  | JBool b => b
  | JInt z => negb (z =? 0)
  | JFloat m _ => negb (m =? 0)
  | JList l => negb (forallb is_a_str l)
  | _ => false
  end.

(** A truthy value that [len] rejects. *)
Definition unsized (v : value) : bool :=
  match v with
  | JBool b => b
  | JInt z => negb (z =? 0)
  | JFloat m _ => negb (m =? 0)
  | _ => false
  end.

(** The reading under which no field failure ever drops a record: every
    item that is a mapping yields one. *)
Definition every_mapping_is_emitted : Prop :=
  forall d : list (string * value),
    exists c, _parse_comment (JDict d) = Some c.

(** *** Sample inputs *)

(** A well-formed answer carrying [items] and [totalCount]. *)
Definition page_of (items total : value) : outcome :=
  Response 200
    (Decoded
       (JDict [("result", JDict [("items", items); ("totalCount", total)])])).

Definition review : value := JDict [("content", JStr "nice")].

Definition degraded_review : list (string * value) :=
  [("userInfo", JStr "x"); ("publishTypeTag", JInt 7);
   ("content", JStr "nice")].

Definition http_500 : outcome := Response 500 (Decoded JNull).

(** [requests.exceptions.Timeout] (which is a [RequestException]), a bare
    [RequestException], and the [json.JSONDecodeError] of the standard
    library. *)
Definition timeout_error : exn :=
  fun c => match c with Timeout | RequestException => true | _ => false end.

Definition request_error : exn :=
  fun c => match c with RequestException => true | _ => false end.

Definition json_decode_error : exn :=
  fun c => match c with JSONDecodeError => true | _ => false end.

(** What [response.json()] raises on a body that is not JSON:
    [requests.exceptions.JSONDecodeError], which the [requests] library
    (2.27 and later) declares as
    [JSONDecodeError(InvalidJSONError, json.JSONDecodeError)] with
    [InvalidJSONError(RequestException)].  It is an instance of both
    [RequestException] and [json.JSONDecodeError]. *)
Definition response_json_error : exn :=
  fun c =>
    match c with
    | RequestException | JSONDecodeError => true
    | _ => false
    end.

(** *** Vocabulary for the loop statements *)

Definition non_2xx (status : Z) : Prop := status < 200 \/ 300 <= status.

(** A failure that counts toward the ceiling: a status other than 200, or
    an exception that lands in the [RequestException] clause. *)
Definition countable (o : outcome) : bool :=
  match o with
  | PostRaises e =>
      match handler_of e with H_RequestException => true | _ => false end
  | Response status_code json =>
      negb (status_code =? 200)
      || match json with
         | DecodeRaises e =>
             match handler_of e with
             | H_RequestException => true
             | _ => false
             end
         | Decoded _ => false
         end
  end.

(** A timeout or a connection error raised by the request. *)
Definition transient (o : outcome) : bool :=
  match o with
  | PostRaises e => e Timeout || e ConnectionError
  | Response _ _ => false
  end.

(** A control outcome with the stored total blanked out. *)
Definition forget_total (c : control) : control :=
  match c with
  | Continue s => Continue (store_total JNull s)
  | Break why s => Break why (store_total JNull s)
  end.

(** The reading under which an HTTP failure below the ceiling is retried on
    the same page. *)
Definition http_failure_retries_same_page : Prop :=
  forall s status json,
    non_2xx status ->
    consecutive_empty s + 1 < max_consecutive_empty ->
    exists s',
      iteration s (Response status json) = Continue s'
      /\ page s' = page s
      /\ consecutive_empty s' = consecutive_empty s + 1
      /\ trace s' = trace s ++ [Request (page s); Sleep (Seconds 3)].

(** The reading under which the total is the first page's for good. *)
Definition total_captured_once : Prop :=
  forall max_pages items total rest,
    total_count_from_api
      (final (fetch_comments max_pages (page_of items total :: rest)))
    = total.

(** The reading under which the total never bears on stopping. *)
Definition total_never_stops_the_run : Prop :=
  forall s items total total',
    forget_total (iteration s (page_of items total)) =
    forget_total (iteration s (page_of items total')).

(** *** Vocabulary for further properties of the loop and the parser *)



(** A decoded body that is a mapping holding a mapping under ['result']. *)
Definition enveloped (result : value) : bool :=
  match result with
  | JDict d =>
      match lookup d "result" with
      | Some (JDict _) => true
      | _ => false
      end
  | _ => false
  end.

(** The two exits taken when the counter reaches the ceiling. *)
Definition ceiling (why : stop) : bool :=
  match why with
  | HttpFailures | RequestFailures => true
  | _ => false
  end.

(** Requests and sleeps taking turns, a request first: [Some b] when the
    trace does so, [b] telling whether a request comes next. *)
Fixpoint pace (expect_request : bool) (t : list event) : option bool :=
  match t with
  | [] => Some expect_request
  | Request _ :: t' => if expect_request then pace false t' else None
  | Sleep _ :: t' => if expect_request then None else pace true t'
  end.

(** Each page index is the one before it or the next one. *)
Fixpoint stepwise (p : Z) (l : list Z) : bool :=
  match l with
  | [] => true
  | q :: l' => ((q =? p) || (q =? p + 1)) && stepwise q l'
  end.

(** [p] is a page index that the page limit lets through. *)
Definition within (max_pages : option Z) (p : Z) : Prop :=
  match max_pages with
  | None => True
  | Some m => m <> 0 -> p <= m
  end.

(** The pages requested so far lead up to the current page. *)
Record on_track (max_pages : option Z) (s : session) : Prop := mkOnTrack {
  track_steps : stepwise 1 (requested (trace s)) = true;
  track_first : hd 1 (requested (trace s)) = 1;
  track_last :
    page s = last (requested (trace s)) 1
    \/ (requested (trace s) <> []
        /\ page s = last (requested (trace s)) 1 + 1);
  track_bounds :
    Forall (fun q => 1 <= q /\ within max_pages q) (requested (trace s));
  track_page : 1 <= page s
}.

Fixpoint no_space (s : string) : bool :=
  match s with
  | EmptyString => true
  | String c s' => negb (Ascii.eqb c " "%char) && no_space s'
  end.

(** ** The identifier look-ups and [main] *)

(** *** The fragment of [re] that the two patterns use *)

Module Re.

(** A literal character, [cls*], and the one capturing group [(cls+)]. *)
Inductive atom : Type :=
| Lit (c : ascii)
| Star (cls : ascii -> bool)
| GroupPlus (cls : ascii -> bool).

(** [cls*] followed by [k]: greedy, giving characters back one at a time
    when what follows does not match. *)
Fixpoint star (cls : ascii -> bool) (k : string -> option string)
  (t : string) : option string :=
  match t with
  | String c t' =>
      if cls c then
        match star cls k t' with
        | Some g => Some g
        | None => k t
        end
      else k t
  | EmptyString => k EmptyString
  end.

(** [(cls+)] followed by [k], greedy in the same way; the result is the
    text of the group. *)
Fixpoint plus_group (cls : ascii -> bool) (k : string -> option string)
  (t : string) : option string :=
  match t with
  | String c t' =>
      if cls c then
        match plus_group cls k t' with
        | Some g => Some (String c g)
        | None =>
            match k t' with
            | Some _ => Some (String c EmptyString)
            | None => None
            end
        end
      else None
  | EmptyString => None
  end.

(** A match of the pattern at the start of the text: [Some] of group 1
    (empty while the group has not been met). *)
Fixpoint match_here (re : list atom) : string -> option string :=
  match re with
  | [] => fun _ => Some EmptyString
  | Lit c :: r =>
      fun t =>
        match t with
        | String c' t' => if Ascii.eqb c' c then match_here r t' else None
        | EmptyString => None
        end
  | Star cls :: r => star cls (match_here r)
  | GroupPlus cls :: r => plus_group cls (match_here r)
  end.

(** [re.search(pattern, t)] followed by [.group(1)]: the leftmost start
    at which the pattern matches. *)
Fixpoint search (re : list atom) (t : string) : option string :=
  match match_here re t with
  | Some g => Some g
  | None =>
      match t with
      | String _ t' => search re t'
      | EmptyString => None
      end
  end.

Fixpoint lits (w : string) : list atom :=
  match w with
  | EmptyString => []
  | String c w' => Lit c :: lits w'
  end.

Fixpoint all_in (cls : ascii -> bool) (s : string) : bool :=
  match s with
  | EmptyString => true
  | String c s' => cls c && all_in cls s'
  end.

(** The text does not go on with a character of the class. *)
Definition stops (cls : ascii -> bool) (s : string) : bool :=
  match s with
  | EmptyString => true
  | String c _ => negb (cls c)
  end.

End Re.

(** The classes [\s] and [\d] of [re] on the characters that the strings
    of this file hold. *)
Definition py_space (c : ascii) : bool :=
  let n := nat_of_ascii c in
  ((9 <=? n) && (n <=? 13) || (28 <=? n) && (n <=? 32)
   || (n =? 133) || (n =? 160))%nat.

Definition py_digit (c : ascii) : bool :=
  let n := nat_of_ascii c in ((48 <=? n) && (n <=? 57))%nat.

(** The six characters [poiId] between double quotes. *)
Definition quoted_poiId : string :=
  String "034" (String.append "poiId" (String "034" EmptyString)).

Section Lookups.

(** [\s] and [\d]: the character classes belong to the [re] library. *)
Variables is_space is_digit : ascii -> bool.

(** [r'/(\d+)\.html'] *)
Definition url_pattern : list Re.atom :=
  Re.Lit "/" :: Re.GroupPlus is_digit :: Re.lits ".html".

(** [r'"poiId"\s*:\s*(\d+)'] *)
Definition poi_pattern : list Re.atom :=
  Re.lits quoted_poiId ++
  [Re.Star is_space; Re.Lit ":"; Re.Star is_space; Re.GroupPlus is_digit].

Definition extract_page_id_from_url (url : string) : option string :=
  Re.search url_pattern url.

(** What [requests.get(page_url, ...)] yields. *)
Inductive page_outcome : Type :=
| GetRaises (e : exn)
| Page (status_code : Z) (text : string).

(** Both [except] clauses of [fetch_poi_id_from_page] return [None]. *)
Definition fetch_poi_id_from_page (o : page_outcome) : option string :=
  match o with
  | GetRaises _ => None
  | Page status_code html =>
      if negb (status_code =? 200) then None
      else Re.search poi_pattern html
  end.

(** [fetch_comments] on a spider built for [poi_id].  [int_ok] tells
    whether [int(self.poi_id)] in [_build_request_data] succeeds; when it
    does not, the [ValueError] of the first pass is taken by
    [except Exception] before anything is posted. *)
Definition spider_fetch_comments (int_ok : bool) (max_pages : option Z)
  (script : list outcome) : result :=
  if int_ok then fetch_comments max_pages script
  else if limit_reached max_pages init then Finished MaxPages init
  else Finished UnknownError init.

(** What a call of [main] comes to. *)
Inductive main_outcome : Type :=
| NoPoiId                   (* no identifier: return before any fetch *)
| Unfinished (s : session)  (* the script of outcomes ran out *)
| Uncaught (s : session)    (* an exception leaves [fetch_comments] *)
| Done (poi_id : string) (s : session) (total : Z)
       (csv : option (list string)).

(** [args.poi_id] when it is truthy, the page look-up otherwise. *)
Definition resolve_poi_id (arg_poi_id : option string) (page : page_outcome)
  : option string :=
  match arg_poi_id with
  | Some p => if negb (String.eqb p "") then Some p
              else fetch_poi_id_from_page page
  | None => fetch_poi_id_from_page page
  end.

(** [main], from the parsed arguments on.  [int_ok] is [int] succeeding on
    the identifier.  [csv] is the header written by [save_to_csv], [None]
    when [main] does not save; the statistics logged after saving are
    outside the model. *)
Definition main (int_ok : string -> bool) (arg_poi_id : option string)
  (page : page_outcome) (max_pages : option Z) (script : list outcome)
  : main_outcome :=
  match resolve_poi_id arg_poi_id page with
  | None => NoPoiId
  | Some poi_id =>
      if String.eqb poi_id "" then NoPoiId
      else
        match spider_fetch_comments (int_ok poi_id) max_pages script with
        | Pending s => Unfinished s
        | Finished why s =>
            match returned why s with
            | None => Uncaught s
            | Some total =>
                if 0 <? total
                then Done poi_id s total (save_to_csv (comments_data s))
                else Done poi_id s total None
            end
        end
  end.

End Lookups.

(** *** Proof automation *)

Ltac unfold_iteration :=
  unfold iteration, on_result, on_page, except, handler_of, python_error,
    sleep, emit, bind_response, bump, reset, next_page, store_total,
    max_consecutive_empty in *.

Ltac break_match :=
  match goal with
  | |- context [match ?x with _ => _ end] => destruct x eqn:?
  | |- context [if ?x then _ else _] => destruct x eqn:?
  end.

(** ** General facts *)

Lemma requested_app (a b : list event) :
  requested (a ++ b) = requested a ++ requested b.
Proof.
  induction a as [|[p|d] a IH]; simpl; congruence.
Qed.

Lemma add_items_spec (items : list value) (s : session) :
  add_items s items =
  mkSession (page s)
    (total_count s + Z.of_nat (List.length (parsed items)))
    (consecutive_empty s) (comments_data s ++ parsed items)
    (total_count_from_api s) (response_bound s) (trace s).
Proof.
  revert s; induction items as [|item items IH]; intros s.
  - destruct s; simpl. rewrite app_nil_r, Z.add_0_r. reflexivity.
  - unfold add_items in *. simpl fold_left. rewrite IH.
    unfold parsed; simpl flat_map. unfold add_item.
    destruct (_parse_comment item) as [[|kv c]|]; simpl;
      try reflexivity.
    rewrite <- app_assoc. simpl. f_equal. lia.
Qed.

(** Every pass posts exactly one request, for the current page, before
    anything else it does. *)
Lemma iteration_trace (s : session) (o : outcome) :
  exists tl,
    trace (session_of (iteration s o)) = trace s ++ Request (page s) :: tl
    /\ requested tl = [].
Proof.
  unfold_iteration.
  repeat (break_match; simpl; try rewrite add_items_spec; simpl);
    try (exists []; split; reflexivity);
    try (rewrite <- app_assoc; simpl; eexists; split; [reflexivity|reflexivity]).
Qed.

Lemma iteration_requests (s : session) (o : outcome) :
  requests (session_of (iteration s o)) = S (requests s).
Proof.
  destruct (iteration_trace s o) as (tl & E & Htl).
  unfold requests. rewrite E, requested_app. simpl. rewrite Htl.
  rewrite length_app. simpl. lia.
Qed.

(** A run over [a ++ b] is the run over [a], resumed on [b] if it is still
    going. *)
Lemma fetch_comments_from_app (max_pages : option Z) (a b : list outcome)
  (s : session) :
  fetch_comments_from max_pages s (a ++ b) =
  match fetch_comments_from max_pages s a with
  | Pending s' => fetch_comments_from max_pages s' b
  | Finished why s' => Finished why s'
  end.
Proof.
  revert s; induction a as [|o a IH]; intros s; simpl.
  - destruct b; simpl; destruct (limit_reached max_pages s) eqn:E;
      try reflexivity; simpl; rewrite E; reflexivity.
  - destruct (limit_reached max_pages s); [reflexivity|].
    destruct (iteration s o); [apply IH | reflexivity].
Qed.

(** A run that is still going has used the whole script. *)
Lemma pending_requests (max_pages : option Z) (script : list outcome) :
  forall s s',
    fetch_comments_from max_pages s script = Pending s' ->
    requests s' = (requests s + List.length script)%nat.
Proof.
  induction script as [|o script IH]; intros s s'; simpl.
  - destruct (limit_reached max_pages s); [discriminate|].
    intros [= <-]. lia.
  - destruct (limit_reached max_pages s); [discriminate|].
    pose proof (iteration_requests s o) as R.
    destruct (iteration s o) as [s1|why s1]; [|discriminate].
    simpl in R. intros H. apply IH in H. lia.
Qed.

(** A run never posts more requests than the script has outcomes. *)
Lemma requests_bound (max_pages : option Z) (script : list outcome) :
  forall s,
    (requests (final (fetch_comments_from max_pages s script))
     <= requests s + List.length script)%nat.
Proof.
  induction script as [|o script IH]; intros s; simpl.
  - destruct (limit_reached max_pages s); simpl; lia.
  - destruct (limit_reached max_pages s); simpl; [lia|].
    pose proof (iteration_requests s o) as R.
    destruct (iteration s o) as [s1|why s1]; simpl in *.
    + specialize (IH s1). lia.
    + lia.
Qed.

Lemma pending_not_limited (max_pages : option Z) (script : list outcome) :
  forall s s',
    fetch_comments_from max_pages s script = Pending s' ->
    limit_reached max_pages s' = false.
Proof.
  induction script as [|o script IH]; intros s s'; simpl.
  - destruct (limit_reached max_pages s) eqn:E; [discriminate|].
    intros [= <-]. exact E.
  - destruct (limit_reached max_pages s); [discriminate|].
    destruct (iteration s o) as [s1|why s1]; [|discriminate].
    apply IH.
Qed.

(** *** The parser *)

Lemma parse_body_dict (d : list (string * value)) :
  parse_body (JDict d) =
  tags <- recommend_tags (JDict d) ;;
  images <- image_count (JDict d) ;;
  Ok [(k_user, try_default (user_field (JDict d) "userNick" anonymous)
                 anonymous);
      (k_time, try_default (publish_date (JDict d)) (JStr ""));
      (k_content, get_or d "content" (JStr ""));
      (k_ip, get_or d "ipLocatedName" (JStr ""));
      (k_score, get_or d "score" (JStr ""));
      (k_tags, tags);
      (k_useful, get_or d "usefulCount" (JInt 0));
      (k_id, get_or d "commentId" (JStr ""));
      (k_images, images);
      (k_reply, get_or d "replyCount" (JInt 0));
      (k_identity,
        try_default (user_field (JDict d) "identitiesName" (JStr ""))
          (JStr ""))].
Proof.
  unfold parse_body.
  destruct (recommend_tags (JDict d)) as [tags|]; simpl; [|reflexivity].
  destruct (image_count (JDict d)) as [images|]; simpl; reflexivity.
Qed.

Lemma parse_complete (item : value) (c : comment) :
  _parse_comment item = Some c -> complete c.
Proof.
  unfold _parse_comment, complete.
  destruct item; try discriminate.
  rewrite parse_body_dict.
  destruct (recommend_tags (JDict d)) as [tags|]; simpl; [|discriminate].
  destruct (image_count (JDict d)) as [images|]; simpl; [|discriminate].
  intros [= <-]. reflexivity.
Qed.

Lemma parsed_complete (items : list value) : Forall complete (parsed items).
Proof.
  unfold parsed. induction items as [|item items IH]; simpl.
  - constructor.
  - destruct (_parse_comment item) as [[|kv c]|] eqn:E; simpl; try exact IH.
    constructor; [|exact IH]. eapply parse_complete; exact E.
Qed.

(** *** Invariants of the loop *)

Lemma reachable_init : reachable init.
Proof.
  constructor; simpl; unfold max_consecutive_empty; try reflexivity; lia.
Qed.

Lemma iteration_reachable (s s' : session) (o : outcome) :
  reachable s -> iteration s o = Continue s' -> reachable s'.
Proof.
  intros [Hp Hf Hc Hr]. unfold max_consecutive_empty in Hr.
  unfold_iteration.
  repeat (break_match; simpl; try discriminate);
    intros [= <-]; try rewrite add_items_spec;
    constructor; simpl in *; unfold max_consecutive_empty;
    try assumption; try lia.
  rewrite length_app. lia.
Qed.

Lemma run_reachable (max_pages : option Z) (script : list outcome) :
  forall s s',
    reachable s ->
    fetch_comments_from max_pages s script = Pending s' ->
    reachable s'.
Proof.
  induction script as [|o script IH]; intros s s' Hs; simpl.
  - destruct (limit_reached max_pages s); [discriminate|].
    intros [= <-]. exact Hs.
  - destruct (limit_reached max_pages s); [discriminate|].
    destruct (iteration s o) as [s1|why s1] eqn:E; [|discriminate].
    apply IH. eapply iteration_reachable; eassumption.
Qed.

(** The records only ever grow by the parsed items of a page. *)
Lemma iteration_records (s : session) (o : outcome) :
  comments_data (session_of (iteration s o)) = comments_data s
  \/ exists items,
       comments_data (session_of (iteration s o)) =
       comments_data s ++ parsed items.
Proof.
  unfold_iteration.
  repeat (break_match; simpl; try rewrite add_items_spec; simpl);
    try (left; reflexivity).
  right. eexists. reflexivity.
Qed.

Lemma iteration_complete (s : session) (o : outcome) :
  Forall complete (comments_data s) ->
  Forall complete (comments_data (session_of (iteration s o))).
Proof.
  intros H. destruct (iteration_records s o) as [E|[items E]]; rewrite E.
  - exact H.
  - apply Forall_app. split; [exact H | apply parsed_complete].
Qed.

Lemma run_complete (max_pages : option Z) (script : list outcome) :
  forall s,
    Forall complete (comments_data s) ->
    Forall complete
      (comments_data (final (fetch_comments_from max_pages s script))).
Proof.
  induction script as [|o script IH]; intros s Hs; simpl.
  - destruct (limit_reached max_pages s); exact Hs.
  - destruct (limit_reached max_pages s); [exact Hs|].
    pose proof (iteration_complete s o Hs) as H.
    destruct (iteration s o) as [s1|why s1]; simpl in *.
    + apply IH. exact H.
    + exact H.
Qed.

(** ** The item parser *)

Lemma user_field_degrades (d : list (string * value)) (key : string)
  (default : value) :
  try_default (user_field (JDict d) key default) default =
  degraded_user_field d key default.
Proof.
  unfold user_field, degraded_user_field; simpl.
  destruct (get_or d "userInfo" (JDict [])) as [|b|z|m e|u|l|u]; simpl;
    try reflexivity.
  - destruct b; reflexivity.
  - destruct (z =? 0); reflexivity.
  - destruct (m =? 0); reflexivity.
  - destruct (String.eqb u ""); reflexivity.
  - destruct l; reflexivity.
  - destruct u; reflexivity.
Qed.

Lemma publish_date_degrades (d : list (string * value)) :
  try_default (publish_date (JDict d)) (JStr "") = degraded_date d.
Proof.
  unfold publish_date, degraded_date; simpl.
  destruct (get_or d "publishTypeTag" (JStr "")) as [|b|z|m e|u|l|u]; simpl;
    try reflexivity.
  - destruct b; reflexivity.
  - destruct (z =? 0); reflexivity.
  - destruct (m =? 0); reflexivity.
  - destruct (String.eqb u "") eqn:E; simpl; [|reflexivity].
    apply String.eqb_eq in E. subst u. reflexivity.
  - destruct l; reflexivity.
  - destruct u; reflexivity.
Qed.

Lemma all_str_raises (l : list value) :
  all_str l = Raise <-> forallb is_a_str l = false.
Proof.
  induction l as [|v l IH]; simpl.
  - split; discriminate.
  - destruct v; simpl; try (split; reflexivity).
    destruct (all_str l); simpl.
    + split; [discriminate|]. intros H. apply IH in H. discriminate.
    + split; [|reflexivity]. intros _. apply IH. reflexivity.
Qed.

Lemma recommend_tags_raises (d : list (string * value)) :
  recommend_tags (JDict d) = Raise <->
  unjoinable (get_or d "recommendItems" (JList [])) = true.
Proof.
  unfold recommend_tags; simpl.
  destruct (get_or d "recommendItems" (JList [])) as [|b|z|m e|u|l|u]; simpl;
    try (split; discriminate).
  - destruct b; simpl; split; (reflexivity || discriminate).
  - destruct (z =? 0); simpl; split; (reflexivity || discriminate).
  - destruct (m =? 0); simpl; split; (reflexivity || discriminate).
  - destruct (String.eqb u ""); simpl; split; discriminate.
  - destruct l as [|v l]; simpl; [split; discriminate|].
    pose proof (all_str_raises (v :: l)) as H. simpl in H.
    destruct (match v with JStr s => bind (all_str l) (fun r => Ok (s :: r))
                         | _ => Raise end) eqn:E; simpl.
    + split; [discriminate|]. intros H1.
      apply Bool.negb_true_iff in H1. apply H in H1. discriminate.
    + split; [|reflexivity]. intros _.
      apply Bool.negb_true_iff. apply H. reflexivity.
  - destruct u; simpl; split; discriminate.
Qed.

Lemma image_count_raises (d : list (string * value)) :
  image_count (JDict d) = Raise <->
  unsized (get_or d "images" JNull) = true.
Proof.
  unfold image_count; simpl. unfold get_or.
  destruct (lookup d "images") as [[|b|z|m e|u|l|u]|]; simpl;
    try (split; discriminate).
  - destruct b; simpl; split; (reflexivity || discriminate).
  - destruct (z =? 0); simpl; split; (reflexivity || discriminate).
  - destruct (m =? 0); simpl; split; (reflexivity || discriminate).
  - destruct (String.eqb u ""); simpl; split; discriminate.
  - destruct l; simpl; split; discriminate.
  - destruct u; simpl; split; discriminate.
Qed.

(** C2, as the code has it.  An item that is not a mapping is dropped.  For
    an item that is a mapping, the author, the date and the identity badge
    are the three guarded fields: when their extraction fails they fall back
    to their defaults and the record is still emitted, with every other
    field as the item gives it.  The tags and the image count are not
    guarded: the record is dropped exactly when the [recommendItems] value
    is truthy and cannot be joined, or the [images] value is truthy and has
    no length. *)
Theorem parse_comment_degrades_guarded_fields (item : value) :
  (_parse_comment item = None <->
   match item with
   | JDict d =>
       unjoinable (get_or d "recommendItems" (JList [])) = true
       \/ unsized (get_or d "images" JNull) = true
   | _ => True
   end)
  /\ (forall d c,
        item = JDict d ->
        _parse_comment item = Some c ->
        exists tags images,
          recommend_tags item = Ok tags
          /\ image_count item = Ok images
          /\ c = [(k_user, degraded_user_field d "userNick" anonymous);
                  (k_time, degraded_date d);
                  (k_content, get_or d "content" (JStr ""));
                  (k_ip, get_or d "ipLocatedName" (JStr ""));
                  (k_score, get_or d "score" (JStr ""));
                  (k_tags, tags);
                  (k_useful, get_or d "usefulCount" (JInt 0));
                  (k_id, get_or d "commentId" (JStr ""));
                  (k_images, images);
                  (k_reply, get_or d "replyCount" (JInt 0));
                  (k_identity,
                    degraded_user_field d "identitiesName" (JStr ""))]).
Proof.
  split.
  - unfold _parse_comment.
    destruct item as [|b|z|m e|u|l|d]; try (split; [intros _; exact I|reflexivity]).
    rewrite parse_body_dict.
    rewrite <- recommend_tags_raises, <- image_count_raises.
    destruct (recommend_tags (JDict d)) as [tags|]; simpl.
    + destruct (image_count (JDict d)) as [images|]; simpl.
      * split; [discriminate|]. intros [H|H]; discriminate.
      * split; [intros _; right; reflexivity | reflexivity].
    + split; [intros _; left; reflexivity | reflexivity].
  - intros d c -> . unfold _parse_comment. rewrite parse_body_dict.
    destruct (recommend_tags (JDict d)) as [tags|]; simpl; [|discriminate].
    destruct (image_count (JDict d)) as [images|]; simpl; [|discriminate].
    intros [= <-]. exists tags, images.
    rewrite !user_field_degrades, publish_date_degrades.
    repeat split.
Qed.

(** An item whose [userInfo] is a string and whose date tag is a number:
    both guarded fields fall back, the record is emitted. *)
Lemma parse_comment_degrades_witness :
  _parse_comment (JDict degraded_review) =
    Some [(k_user, anonymous); (k_time, JStr ""); (k_content, JStr "nice");
          (k_ip, JStr ""); (k_score, JStr ""); (k_tags, JStr "");
          (k_useful, JInt 0); (k_id, JStr ""); (k_images, JInt 0);
          (k_reply, JInt 0); (k_identity, JStr "")]
  /\ exists tags images,
       recommend_tags (JDict degraded_review) = Ok tags
       /\ image_count (JDict degraded_review) = Ok images
       /\ [(k_user, anonymous); (k_time, JStr ""); (k_content, JStr "nice");
           (k_ip, JStr ""); (k_score, JStr ""); (k_tags, JStr "");
           (k_useful, JInt 0); (k_id, JStr ""); (k_images, JInt 0);
           (k_reply, JInt 0); (k_identity, JStr "")] =
          [(k_user, degraded_user_field degraded_review "userNick" anonymous);
           (k_time, degraded_date degraded_review);
           (k_content, get_or degraded_review "content" (JStr ""));
           (k_ip, get_or degraded_review "ipLocatedName" (JStr ""));
           (k_score, get_or degraded_review "score" (JStr ""));
           (k_tags, tags);
           (k_useful, get_or degraded_review "usefulCount" (JInt 0));
           (k_id, get_or degraded_review "commentId" (JStr ""));
           (k_images, images);
           (k_reply, get_or degraded_review "replyCount" (JInt 0));
           (k_identity,
             degraded_user_field degraded_review "identitiesName" (JStr ""))].
Proof.
  split; [reflexivity|].
  apply (proj2 (parse_comment_degrades_guarded_fields (JDict degraded_review))
           degraded_review); reflexivity.
Defined.

(** C2 as the specification words it fails: an item that is a mapping, with
    nothing wrong but a number among its recommendation tags, is dropped
    whole. *)
Lemma tags_failure_drops_record :
  _parse_comment
    (JDict [("content", JStr "nice"); ("recommendItems", JList [JInt 1])])
  = None
  /\ ~ every_mapping_is_emitted.
Proof.
  split; [reflexivity|].
  intros H.
  destruct (H [("content", JStr "nice"); ("recommendItems", JList [JInt 1])])
    as [c Hc].
  discriminate Hc.
Qed.

(** ** The columns of the persisted table *)

Lemma df_columns_complete (records : list comment) (c : comment) :
  Forall complete (c :: records) -> df_columns (c :: records) = comment_keys.
Proof.
  intros H. inversion H as [|c' l Hc Hl]; subst.
  unfold df_columns. simpl fold_left at 1. rewrite Hc.
  change (fold_left (fun cols k => if mem k cols then cols else cols ++ [k])
            comment_keys []) with comment_keys.
  clear H Hc. induction Hl as [|r l Hr Hl IH]; simpl; [reflexivity|].
  rewrite Hr.
  change (fold_left (fun cols k => if mem k cols then cols else cols ++ [k])
            comment_keys comment_keys) with comment_keys.
  exact IH.
Qed.

(** C10.  Every record that [_parse_comment] emits has the same eleven keys
    in the same insertion order, whatever the item lacked; and whenever a
    run leaves at least one record, the header that [save_to_csv] writes is
    the full [columns_order], which lists those eleven keys. *)
Theorem emitted_records_have_eleven_fields (item : value) (c : comment)
  (max_pages : option Z) (script : list outcome) :
  _parse_comment item = Some c ->
  comments_data (final (fetch_comments max_pages script)) <> [] ->
  keys c = comment_keys
  /\ List.length comment_keys = 11%nat
  /\ NoDup comment_keys
  /\ save_to_csv (comments_data (final (fetch_comments max_pages script)))
     = Some columns_order
  /\ (forall k, In k columns_order <-> In k comment_keys).
Proof.
  intros Hc Hne. split; [eapply parse_complete; exact Hc|].
  split; [reflexivity|]. split.
  - unfold comment_keys.
    repeat (constructor; [simpl; intros H;
                          repeat (destruct H as [H|H]; [discriminate H|]);
                          exact H|]).
    constructor.
  - split.
    + pose proof (run_complete max_pages script init (Forall_nil _)) as H.
      fold (fetch_comments max_pages script) in H.
      destruct (comments_data (final (fetch_comments max_pages script)))
        as [|r records]; [congruence|].
      unfold save_to_csv, existing_columns.
      rewrite (df_columns_complete records r H).
      reflexivity.
    + intros k. unfold columns_order, comment_keys. simpl. tauto.
Qed.

Lemma emitted_records_witness :
  keys [(k_user, anonymous); (k_time, JStr ""); (k_content, JStr "nice");
        (k_ip, JStr ""); (k_score, JStr ""); (k_tags, JStr "");
        (k_useful, JInt 0); (k_id, JStr ""); (k_images, JInt 0);
        (k_reply, JInt 0); (k_identity, JStr "")] = comment_keys
  /\ List.length comment_keys = 11%nat
  /\ NoDup comment_keys
  /\ save_to_csv
       (comments_data
          (final (fetch_comments None [page_of (JList [review]) (JInt 1)])))
     = Some columns_order
  /\ (forall k, In k columns_order <-> In k comment_keys).
Proof.
  apply (emitted_records_have_eleven_fields (JDict degraded_review)).
  - reflexivity.
  - vm_compute. discriminate.
Defined.

(** ** The retrieval loop *)

Lemma requests_emit_request (p : Z) (s : session) :
  requests (emit (Request p) s) = S (requests s).
Proof.
  unfold requests, emit; simpl. rewrite requested_app, length_app. simpl. lia.
Qed.

(** A run that gets to post starts with the current page. *)
Lemma run_first_request (max_pages : option Z) (s : session) (o : outcome)
  (rest : list outcome) :
  limit_reached max_pages s = false ->
  exists tl,
    trace (final (fetch_comments_from max_pages s (o :: rest))) =
    trace s ++ Request (page s) :: tl.
Proof.
  intros L. simpl. rewrite L.
  destruct (iteration_trace s o) as (tl & E & _).
  destruct (iteration s o) as [s1|why s1]; simpl in E.
  - assert (G : forall script s2, exists tl2,
               trace (final (fetch_comments_from max_pages s2 script)) =
               trace s2 ++ tl2).
    { induction script as [|o' script IH]; intros s2; simpl.
      - destruct (limit_reached max_pages s2); exists []; simpl;
          rewrite app_nil_r; reflexivity.
      - destruct (limit_reached max_pages s2);
          [exists []; simpl; rewrite app_nil_r; reflexivity|].
        destruct (iteration_trace s2 o') as (tl' & E' & _).
        destruct (iteration s2 o') as [s3|why s3]; simpl in E'.
        + destruct (IH s3) as [tl3 E3]. rewrite E3, E'.
          rewrite <- app_assoc. eexists; reflexivity.
        + simpl. rewrite E'. eexists; reflexivity. }
    destruct (G rest s1) as [tl2 E2]. rewrite E2, E.
    rewrite <- app_assoc. simpl. eexists; reflexivity.
  - simpl. rewrite E. eexists; reflexivity.
Qed.

(** C1, as the code has it.  A status other than 200 (so every non-2xx
    status) with the incremented counter still under the ceiling makes the
    loop skip the page: the counter goes up by one, the page index goes up
    by one, the loop sleeps 3 seconds and, unless the page limit is then
    exceeded, the next request asks for the following page.  The page index
    moves only by such a skip or by a page whose items were processed. *)
Theorem http_failure_skips_page (max_pages : option Z) (s : session)
  (status : Z) (json : body) (rest : list outcome) :
  status <> 200 ->
  consecutive_empty s + 1 < max_consecutive_empty ->
  limit_reached max_pages s = false ->
  exists s',
    iteration s (Response status json) = Continue s'
    /\ page s' = page s + 1
    /\ consecutive_empty s' = consecutive_empty s + 1
    /\ comments_data s' = comments_data s
    /\ trace s' = trace s ++ [Request (page s); Sleep (Seconds 3)]
    /\ fetch_comments_from max_pages s (Response status json :: rest) =
       fetch_comments_from max_pages s' rest
    /\ (forall o,
          limit_reached max_pages s' = false ->
          exists tl,
            trace (final (fetch_comments_from max_pages s' (o :: rest))) =
            trace s' ++ Request (page s + 1) :: tl)
    /\ (forall o s1,
          iteration s o = Continue s1 ->
          page s1 <> page s ->
          page s1 = page s + 1
          /\ ((exists st j, o = Response st j /\ st <> 200)
              \/ (exists result items total l,
                    o = Response 200 (Decoded result)
                    /\ envelope result = Ok (items, total)
                    /\ iter items = Ok l
                    /\ comments_data s1 = comments_data s ++ parsed l
                    /\ consecutive_empty s1 = 0))).
Proof.
  intros Hst Hc L.
  assert (E : iteration s (Response status json) =
              Continue (sleep (Seconds 3)
                          (next_page (bump (bind_response
                             (emit (Request (page s)) s)))))).
  { unfold iteration. apply Z.eqb_neq in Hst. rewrite Hst. simpl.
    destruct (consecutive_empty s + 1 >=? max_consecutive_empty) eqn:G;
      [|reflexivity].
    rewrite Z.geb_le in G. lia. }
  eexists. split; [exact E|].
  split; [reflexivity|]. split; [reflexivity|]. split; [reflexivity|].
  split; [simpl; rewrite <- app_assoc; reflexivity|].
  split; [cbn [fetch_comments_from]; rewrite L, E; reflexivity|].
  split; [intros o L'; apply (run_first_request max_pages _ o rest L')|].
  clear E. intros o s1 H N. split.
  - revert N. revert H. unfold_iteration.
    repeat (break_match; simpl; try discriminate);
      intros [= <-]; simpl; try rewrite add_items_spec; simpl; intros N;
      try (exfalso; apply N; reflexivity); reflexivity.
  - revert N. revert H. unfold_iteration.
    destruct o as [e|st j]; simpl.
    + repeat (break_match; simpl; try discriminate); intros [= <-]; simpl;
        intros N; exfalso; apply N; reflexivity.
    + destruct (st =? 200) eqn:S200; simpl.
      * apply Z.eqb_eq in S200. subst st.
        destruct j as [result|e].
        -- destruct (contains "result" result) as [[|]|]; simpl;
             try discriminate.
           destruct (envelope result) as [[items total]|] eqn:Env; simpl;
             try discriminate.
           destruct (iter items) as [l|] eqn:It;
             repeat (break_match; simpl; try discriminate).
           intros [= <-]; simpl. intros _. right.
           exists result, items, total, l.
           rewrite add_items_spec. simpl. repeat split; assumption.
        -- repeat (break_match; simpl; try discriminate); intros [= <-];
             simpl; intros N; exfalso; apply N; reflexivity.
      * intros _ _. left. exists st, j. split; [reflexivity|].
        apply Z.eqb_neq. exact S200.
Qed.

(** Page 1 answers 500 with the counter at 0. *)
Lemma http_failure_skips_page_witness :
  (500 <> 200
   /\ consecutive_empty init + 1 < max_consecutive_empty
   /\ limit_reached None init = false)
  /\ exists s',
       iteration init http_500 = Continue s'
       /\ page s' = page init + 1
       /\ consecutive_empty s' = consecutive_empty init + 1.
Proof.
  split.
  - split; [lia|]. split; [reflexivity|reflexivity].
  - destruct (http_failure_skips_page None init 500 (Decoded JNull) [])
      as (s' & E & P & C & _).
    + lia.
    + reflexivity.
    + reflexivity.
    + exists s'. split; [exact E|]. split; [exact P | exact C].
Defined.

(** C1 as the specification words it fails: page 1 answers 500, and the
    loop moves on to page 2, which is the page the second request asks
    for. *)
Lemma http_failure_advances_page :
  (exists s', iteration init http_500 = Continue s' /\ page s' = 2)
  /\ requested
       (trace
          (final
             (fetch_comments None
                [http_500; page_of (JList [review]) (JInt 1)])))
     = [1; 2]
  /\ ~ http_failure_retries_same_page.
Proof.
  split; [eexists; split; reflexivity|].
  split; [reflexivity|].
  intros H.
  destruct (H init 500 (Decoded JNull)) as (s' & E & P & _).
  - right. lia.
  - reflexivity.
  - injection E as <-. discriminate P.
Qed.

(** A decoded answer with its envelope in place goes through [on_page]. *)
Lemma decoded_page_step (s : session) (result items total : value) :
  contains "result" result = Ok true ->
  envelope result = Ok (items, total) ->
  iteration s (Response 200 (Decoded result)) =
  on_page (bind_response (emit (Request (page s)) s)) items total.
Proof.
  intros H1 H2. unfold iteration, on_result. simpl.
  rewrite H1, H2. reflexivity.
Qed.

(** C3, as the code has it.  Every answer whose envelope is read overwrites
    the stored total, on whatever page.  The stored total is looked at only
    while the page index is 1, where a total equal to 0 ends the run at
    once; on any other page index the answer's total changes nothing but
    the stored total itself. *)
Theorem total_is_overwritten_and_read_on_page_one (s : session)
  (result items total : value) :
  contains "result" result = Ok true ->
  envelope result = Ok (items, total) ->
  total_count_from_api
    (session_of (iteration s (Response 200 (Decoded result)))) = total
  /\ (page s = 1 ->
      eq_zero total = true ->
      iteration s (Response 200 (Decoded result)) =
      Break NoComments
        (store_total total (bind_response (emit (Request (page s)) s))))
  /\ (page s <> 1 ->
      forall result' total',
        contains "result" result' = Ok true ->
        envelope result' = Ok (items, total') ->
        forget_total (iteration s (Response 200 (Decoded result))) =
        forget_total (iteration s (Response 200 (Decoded result')))).
Proof.
  intros Hc He.
  rewrite (decoded_page_step s result items total Hc He). split; [|split].
  - unfold on_page, except, python_error, handler_of. simpl.
    repeat (break_match; simpl; try rewrite add_items_spec; simpl);
      reflexivity.
  - intros P Z0. unfold on_page. simpl. rewrite P, Z0. reflexivity.
  - intros P result' total' Hc' He'.
    rewrite (decoded_page_step s result' items total' Hc' He').
    apply Z.eqb_neq in P.
    unfold on_page, except, python_error, handler_of. simpl. rewrite P. simpl.
    destruct (truthy items); simpl; [|reflexivity].
    destruct (iter items); simpl; [|reflexivity].
    rewrite !add_items_spec. reflexivity.
Qed.

(** On page 2 the stored total 5 is replaced by 7. *)
Lemma total_is_overwritten_witness :
  (contains "result"
     (JDict [("result",
              JDict [("items", JList [review]); ("totalCount", JInt 7)])])
   = Ok true
   /\ envelope
        (JDict [("result",
                 JDict [("items", JList [review]); ("totalCount", JInt 7)])])
      = Ok (JList [review], JInt 7))
  /\ total_count_from_api
       (final (fetch_comments None [page_of (JList [review]) (JInt 5)]))
     = JInt 5
  /\ total_count_from_api
       (session_of
          (iteration
             (final (fetch_comments None [page_of (JList [review]) (JInt 5)]))
             (page_of (JList [review]) (JInt 7))))
     = JInt 7.
Proof.
  split; [split; reflexivity|]. split; [reflexivity|].
  apply (total_is_overwritten_and_read_on_page_one
           (final (fetch_comments None [page_of (JList [review]) (JInt 5)]))
           (JDict [("result",
                    JDict [("items", JList [review]);
                           ("totalCount", JInt 7)])])
           (JList [review]) (JInt 7)); reflexivity.
Defined.

(** C3 as the specification words it fails twice.  A second page reporting
    7 replaces the 5 that the first page reported; and a first page
    carrying one item stops the run when it reports 0 but not when it
    reports 5. *)
Lemma total_is_overwritten_and_can_stop_the_run :
  total_count_from_api
    (final
       (fetch_comments None
          [page_of (JList [review]) (JInt 5);
           page_of (JList [review]) (JInt 7)]))
  = JInt 7
  /\ (exists s,
        fetch_comments None [page_of (JList [review]) (JInt 0)] =
        Finished NoComments s)
  /\ (exists s,
        fetch_comments None [page_of (JList [review]) (JInt 5)] = Pending s)
  /\ ~ total_captured_once
  /\ ~ total_never_stops_the_run.
Proof.
  split; [reflexivity|].
  split; [eexists; reflexivity|].
  split; [eexists; reflexivity|].
  split.
  - intros H.
    specialize (H None (JList [review]) (JInt 5)
                  [page_of (JList [review]) (JInt 7)]).
    discriminate H.
  - intros H.
    specialize (H init (JList [review]) (JInt 0) (JInt 5)).
    discriminate H.
Qed.

(** *** The failure ceiling *)

Lemma countable_step (s : session) (o : outcome) :
  countable o = true ->
  comments_data (session_of (iteration s o)) = comments_data s
  /\ total_count (session_of (iteration s o)) = total_count s
  /\ consecutive_empty (session_of (iteration s o)) = consecutive_empty s + 1
  /\ ((max_consecutive_empty <= consecutive_empty s + 1
       /\ exists why,
            iteration s o = Break why (session_of (iteration s o))
            /\ (why = HttpFailures \/ why = RequestFailures))
      \/ (consecutive_empty s + 1 < max_consecutive_empty
          /\ iteration s o = Continue (session_of (iteration s o)))).
Proof.
  unfold countable, iteration, except.
  destruct o as [e|st j].
  - destruct (handler_of e); try discriminate. intros _. simpl.
    destruct (consecutive_empty s + 1 >=? max_consecutive_empty) eqn:G;
      simpl; repeat split; try reflexivity.
    + left. rewrite Z.geb_le in G. split; [lia|].
      exists RequestFailures. split; [reflexivity | right; reflexivity].
    + right. rewrite Z.geb_leb in G. apply Z.leb_gt in G. split; [lia|].
      reflexivity.
  - destruct (st =? 200) eqn:S200; simpl.
    + destruct j as [r|e]; try discriminate.
      destruct (handler_of e); try discriminate. intros _. simpl.
      destruct (consecutive_empty s + 1 >=? max_consecutive_empty) eqn:G;
        simpl; repeat split; try reflexivity.
      * left. rewrite Z.geb_le in G. split; [lia|].
        exists RequestFailures. split; [reflexivity | right; reflexivity].
      * right. rewrite Z.geb_leb in G. apply Z.leb_gt in G. split; [lia|].
        reflexivity.
    + intros _.
      destruct (consecutive_empty s + 1 >=? max_consecutive_empty) eqn:G;
        simpl; repeat split; try reflexivity.
      * left. rewrite Z.geb_le in G. split; [lia|].
        exists HttpFailures. split; [reflexivity | left; reflexivity].
      * right. rewrite Z.geb_leb in G. apply Z.leb_gt in G. split; [lia|].
        reflexivity.
Qed.

(** C4.  In a run where three countable failures in a row are really
    asked for and yielded (the run posts at least the requests that receive
    them), the third one ends the run: exactly three requests were posted
    for the streak, nothing is posted after it whatever the service would
    have answered, and the records gathered before the streak are the
    records of the result, their number being what the call returns. *)
Theorem three_countable_failures_stop_the_run (max_pages : option Z)
  (pre rest : list outcome) (f1 f2 f3 : outcome) :
  countable f1 = true ->
  countable f2 = true ->
  countable f3 = true ->
  (List.length pre + 3 <=
   requests (final (fetch_comments max_pages
                      (pre ++ f1 :: f2 :: f3 :: rest))))%nat ->
  exists s why sf,
    fetch_comments max_pages pre = Pending s
    /\ fetch_comments max_pages (pre ++ f1 :: f2 :: f3 :: rest) =
       Finished why sf
    /\ (why = HttpFailures \/ why = RequestFailures)
    /\ requests sf = (List.length pre + 3)%nat
    /\ comments_data sf = comments_data s
    /\ returned why sf = Some (Z.of_nat (List.length (comments_data s))).
Proof.
  intros C1 C2 C3. unfold fetch_comments.
  rewrite fetch_comments_from_app.
  destruct (fetch_comments_from max_pages init pre) as [s|why0 s0] eqn:E.
  2:{ intros H. exfalso.
      pose proof (requests_bound max_pages pre init) as B.
      rewrite E in B. change (requests init) with 0%nat in B.
      simpl in *. lia. }
  pose proof (run_reachable _ _ _ _ reachable_init E) as [_ _ Hn Hr].
  pose proof (pending_requests _ _ _ _ E) as R.
  pose proof (pending_not_limited _ _ _ _ E) as L.
  change (requests init) with 0%nat in R.
  cbn [fetch_comments_from]. rewrite L.
  destruct (countable_step s f1 C1)
    as (D1 & T1 & K1 & [[G1 (w1 & B1 & _)]|[G1 E1]]);
    pose proof (iteration_requests s f1) as R1.
  { rewrite B1. simpl. intros; lia. }
  rewrite E1. set (s1 := session_of (iteration s f1)) in *.
  destruct (limit_reached max_pages s1); [simpl; intros; lia|].
  destruct (countable_step s1 f2 C2)
    as (D2 & T2 & K2 & [[G2 (w2 & B2 & _)]|[G2 E2]]);
    pose proof (iteration_requests s1 f2) as R2.
  { rewrite B2. simpl. intros; lia. }
  rewrite E2. set (s2 := session_of (iteration s1 f2)) in *.
  destruct (limit_reached max_pages s2); [simpl; intros; lia|].
  destruct (countable_step s2 f3 C3)
    as (D3 & T3 & K3 & [[G3 (why & E3 & W)]|[G3 _]]);
    pose proof (iteration_requests s2 f3) as R3.
  2:{ unfold max_consecutive_empty in *. lia. }
  rewrite E3. intros _.
  exists s, why, (session_of (iteration s2 f3)).
  split; [reflexivity|]. split; [reflexivity|]. split; [exact W|].
  split; [lia|]. split; [congruence|].
  assert (T : total_count (session_of (iteration s2 f3)) =
              Z.of_nat (List.length (comments_data s))) by congruence.
  destruct W as [-> | ->]; simpl; rewrite T; reflexivity.
Qed.

(** One good page, then 500, a bare [RequestException], 500. *)
Lemma three_countable_failures_witness :
  (countable http_500 = true
   /\ countable (PostRaises request_error) = true
   /\ (1 + 3 <=
       requests
         (final
            (fetch_comments None
               ([page_of (JList [review]) (JInt 9)] ++
                http_500 :: PostRaises request_error :: http_500 ::
                [page_of (JList [review]) (JInt 9)]))))%nat)
  /\ exists s why sf,
       fetch_comments None [page_of (JList [review]) (JInt 9)] = Pending s
       /\ fetch_comments None
            ([page_of (JList [review]) (JInt 9)] ++
             http_500 :: PostRaises request_error :: http_500 ::
             [page_of (JList [review]) (JInt 9)]) = Finished why sf
       /\ (why = HttpFailures \/ why = RequestFailures)
       /\ requests sf = (1 + 3)%nat
       /\ comments_data sf = comments_data s
       /\ returned why sf = Some (Z.of_nat (List.length (comments_data s))).
Proof.
  split.
  - split; [reflexivity|]. split; [reflexivity|]. vm_compute. lia.
  - apply (three_countable_failures_stop_the_run None
             [page_of (JList [review]) (JInt 9)]
             [page_of (JList [review]) (JInt 9)]
             http_500 (PostRaises request_error) http_500).
    + reflexivity.
    + reflexivity.
    + reflexivity.
    + vm_compute. lia.
Defined.

(** *** Timeouts and connection errors *)

Lemma transient_step (s : session) (o : outcome) :
  transient o = true ->
  exists d,
    iteration s o = Continue (sleep d (emit (Request (page s)) s)).
Proof.
  destruct o as [e|st j]; [|discriminate]. simpl.
  unfold except, handler_of.
  destruct (e Timeout); simpl.
  - intros _. eexists; reflexivity.
  - intros ->. eexists; reflexivity.
Qed.

(** C5.  A timeout or a connection error leaves the consecutive-failure
    counter and the page index as they were and the loop goes round again:
    after any number of them in a row (six, twice the ceiling, included)
    the run is still going, has asked for the same page each time, holds
    the same records, and carries on with whatever comes next exactly as it
    would have from the session it started the streak in. *)
Theorem transient_errors_never_count (max_pages : option Z)
  (ts rest : list outcome) :
  forall s,
    Forall (fun o => transient o = true) ts ->
    limit_reached max_pages s = false ->
    exists s',
      fetch_comments_from max_pages s ts = Pending s'
      /\ page s' = page s
      /\ consecutive_empty s' = consecutive_empty s
      /\ comments_data s' = comments_data s
      /\ total_count s' = total_count s
      /\ requested (trace s') =
         requested (trace s) ++ repeat (page s) (List.length ts)
      /\ fetch_comments_from max_pages s (ts ++ rest) =
         fetch_comments_from max_pages s' rest.
Proof.
  induction ts as [|o ts IH]; intros s Hts L.
  - exists s. cbn [fetch_comments_from]. rewrite L. simpl.
    rewrite app_nil_r. repeat split; reflexivity.
  - inversion Hts as [|o' ts' Ho Hts']; subst.
    destruct (transient_step s o Ho) as [d E].
    destruct (IH (sleep d (emit (Request (page s)) s)) Hts' L)
      as (s' & R & P & C & D & T & Q & A).
    exists s'. cbn [fetch_comments_from app]. rewrite L, E.
    split; [exact R|]. split; [exact P|]. split; [exact C|].
    split; [exact D|]. split; [exact T|]. split; [|exact A].
    rewrite Q. simpl. rewrite !requested_app. simpl.
    rewrite app_nil_r, <- app_assoc. reflexivity.
Qed.

(** Six timeouts on page 1, then a page with one review: the review is
    collected and the run moves on to page 2. *)
Lemma transient_errors_witness :
  (Forall (fun o => transient o = true)
     (repeat (PostRaises timeout_error) 6)
   /\ limit_reached None init = false)
  /\ (exists s',
        fetch_comments_from None init (repeat (PostRaises timeout_error) 6)
        = Pending s'
        /\ page s' = page init
        /\ consecutive_empty s' = consecutive_empty init
        /\ comments_data s' = comments_data init
        /\ total_count s' = total_count init
        /\ requested (trace s') =
           requested (trace init) ++ repeat (page init) 6
        /\ fetch_comments_from None init
             (repeat (PostRaises timeout_error) 6 ++
              [page_of (JList [review]) (JInt 1)]) =
           fetch_comments_from None s' [page_of (JList [review]) (JInt 1)])
  /\ (exists s,
        fetch_comments None
          (repeat (PostRaises timeout_error) 6 ++
           [page_of (JList [review]) (JInt 1)]) = Pending s
        /\ page s = 2
        /\ consecutive_empty s = 0
        /\ List.length (comments_data s) = 1%nat).
Proof.
  split; [|split].
  - split; [|reflexivity]. repeat constructor.
  - apply (transient_errors_never_count None
             (repeat (PostRaises timeout_error) 6)
             [page_of (JList [review]) (JInt 1)] init).
    + repeat constructor.
    + reflexivity.
  - eexists. split; [vm_compute; reflexivity|]. repeat split.
Defined.

(** *** Ways out of the loop *)





(** What the [except json.JSONDecodeError] clause does when it is reached,
    that is for an exception that none of the three clauses before it
    takes: the loop is left at once, the page is not asked for again,
    nothing more is requested whatever the service would have answered, the
    consecutive-failure counter and the page index are as they were, and
    the records gathered so far are the records of the result, their number
    being what the call returns.  The exception that [response.json()]
    raises is not of that kind: see
    [undecodable_body_is_counted_and_retried]. *)
Theorem decode_failure_stops_the_run (max_pages : option Z)
  (pre rest : list outcome) (s : session) (e : exn) :
  fetch_comments max_pages pre = Pending s ->
  handler_of e = H_JSONDecodeError ->
  exists sf,
    fetch_comments max_pages (pre ++ Response 200 (DecodeRaises e) :: rest)
    = Finished DecodeFailure sf
    /\ comments_data sf = comments_data s
    /\ consecutive_empty sf = consecutive_empty s
    /\ page sf = page s
    /\ requests sf = S (List.length pre)
    /\ requested (trace sf) = requested (trace s) ++ [page s]
    /\ returned DecodeFailure sf =
       Some (Z.of_nat (List.length (comments_data s))).
Proof.
  unfold fetch_comments. intros E He.
  pose proof (run_reachable _ _ _ _ reachable_init E) as [_ _ Hn _].
  pose proof (pending_requests _ _ _ _ E) as R.
  pose proof (pending_not_limited _ _ _ _ E) as L.
  change (requests init) with 0%nat in R.
  pose proof (iteration_requests s (Response 200 (DecodeRaises e))) as R1.
  assert (B : iteration s (Response 200 (DecodeRaises e)) =
              Break DecodeFailure
                (bind_response (emit (Request (page s)) s))).
  { unfold iteration, except. simpl. rewrite He. reflexivity. }
  rewrite B in R1. simpl session_of in R1.
  rewrite fetch_comments_from_app, E. cbn [fetch_comments_from].
  rewrite L, B. eexists. split; [reflexivity|].
  split; [reflexivity|]. split; [reflexivity|]. split; [reflexivity|].
  split; [lia|]. split.
  - simpl. rewrite requested_app. reflexivity.
  - simpl. rewrite Hn. reflexivity.
Qed.

(** One page with a review, then a decoding step that raises an exception
    of the standard library's [json.JSONDecodeError] class alone. *)
Lemma decode_failure_witness :
  (exists s,
     fetch_comments None [page_of (JList [review]) (JInt 3)] = Pending s)
  /\ handler_of json_decode_error = H_JSONDecodeError
  /\ exists sf,
       fetch_comments None
         ([page_of (JList [review]) (JInt 3)] ++
          Response 200 (DecodeRaises json_decode_error) ::
          [page_of (JList [review]) (JInt 3)])
       = Finished DecodeFailure sf
       /\ List.length (comments_data sf) = 1%nat
       /\ consecutive_empty sf = 0
       /\ requests sf = 2%nat.
Proof.
  split; [eexists; vm_compute; reflexivity|].
  split; [reflexivity|].
  destruct (decode_failure_stops_the_run None
              [page_of (JList [review]) (JInt 3)]
              [page_of (JList [review]) (JInt 3)]
              (final (fetch_comments None
                        [page_of (JList [review]) (JInt 3)]))
              json_decode_error)
    as (sf & F & D & C & _ & R & _).
  - vm_compute. reflexivity.
  - reflexivity.
  - exists sf. split; [exact F|].
    split; [rewrite D; reflexivity|]. split; [rewrite C; reflexivity|exact R].
Defined.

(** The clause order matters: a decoding exception that is also a
    [RequestException] is taken by the earlier clause, counted, and the
    page is asked for again. *)
Lemma decode_error_as_request_exception_is_retried (s : session) (e : exn) :
  e Timeout = false ->
  e ConnectionError = false ->
  e RequestException = true ->
  e JSONDecodeError = true ->
  consecutive_empty s + 1 < max_consecutive_empty ->
  exists s',
    iteration s (Response 200 (DecodeRaises e)) = Continue s'
    /\ page s' = page s
    /\ consecutive_empty s' = consecutive_empty s + 1.
Proof.
  intros T C R J H. unfold iteration, except, handler_of. simpl.
  rewrite T, C, R. simpl.
  destruct (consecutive_empty s + 1 >=? max_consecutive_empty) eqn:G.
  - rewrite Z.geb_le in G. lia.
  - eexists. split; [reflexivity|]. split; reflexivity.
Qed.

(** C8.  The code does not do what the claim says.  The exception that
    [response.json()] raises on an undecodable body is also a
    [RequestException], and [except RequestException] stands before
    [except json.JSONDecodeError]: the failure is counted, the loop sleeps
    5 seconds and asks for the same page again.  Page 1 brings a review and
    the body of page 2 cannot be decoded: the run is still going, with the
    counter at 1, and a second answer for page 2 adds its review.  Three
    undecodable bodies in a row end the run by the request-failure exit,
    after three requests for page 1, not by the decode exit after one. *)
Theorem undecodable_body_is_counted_and_retried :
  handler_of response_json_error = H_RequestException
  /\ fetch_comments None
       [page_of (JList [review]) (JInt 3);
        Response 200 (DecodeRaises response_json_error)]
     = Pending
         (mkSession 2 1 1
            (comments_data
               (final (fetch_comments None
                         [page_of (JList [review]) (JInt 3)])))
            (JInt 3) true
            [Request 1; Sleep Uniform_delay_range; Request 2;
             Sleep (Seconds 5)])
  /\ (exists s,
        fetch_comments None
          [page_of (JList [review]) (JInt 3);
           Response 200 (DecodeRaises response_json_error);
           page_of (JList [review]) (JInt 3)]
        = Pending s
        /\ requested (trace s) = [1; 2; 2]
        /\ List.length (comments_data s) = 2%nat
        /\ consecutive_empty s = 0)
  /\ (exists s,
        fetch_comments None
          [Response 200 (DecodeRaises response_json_error);
           Response 200 (DecodeRaises response_json_error);
           Response 200 (DecodeRaises response_json_error);
           page_of (JList [review]) (JInt 3)]
        = Finished RequestFailures s
        /\ requested (trace s) = [1; 1; 1]
        /\ consecutive_empty s = 3).
Proof.
  split; [reflexivity|].
  split; [vm_compute; reflexivity|].
  split.
  - eexists. split; [vm_compute; reflexivity|]. repeat split.
  - eexists. split; [vm_compute; reflexivity|]. repeat split.
Qed.

(** *** The page limit *)

Lemma zero_limit_never_reached (s : session) :
  limit_reached (Some 0) s = false.
Proof. reflexivity. Qed.

(** C9.  A page limit of 0 is falsy, so the limit test never fires: the run
    is the run without a limit, and as soon as the service has an answer to
    give the first request, for page 1, is posted. *)
Theorem zero_max_pages_is_unbounded (s : session) (script : list outcome) :
  fetch_comments_from (Some 0) s script = fetch_comments_from None s script
  /\ limit_reached (Some 0) s = limit_reached None s
  /\ (forall o rest,
        exists tl,
          requested (trace (final (fetch_comments (Some 0) (o :: rest)))) =
          1 :: tl).
Proof.
  split; [|split].
  - revert s. induction script as [|o script IH]; intros s.
    + reflexivity.
    + cbn [fetch_comments_from]. rewrite zero_limit_never_reached.
      simpl limit_reached. destruct (iteration s o); [apply IH|reflexivity].
  - reflexivity.
  - intros o rest.
    destruct (run_first_request (Some 0) init o rest
                (zero_limit_never_reached init)) as [tl E].
    unfold fetch_comments. rewrite E. simpl. eexists; reflexivity.
Qed.

(** ** Further properties of the retrieval loop *)






Lemma break_keeps_count (s sf : session) (o : outcome) (why : stop) :
  reachable s ->
  iteration s o = Break why sf ->
  comments_data sf = comments_data s
  /\ total_count sf = Z.of_nat (List.length (comments_data s))
  /\ page sf = page s
  /\ (why = NoComments -> comments_data s = []).
Proof.
  intros [Hp Hf Hc Hr]. unfold_iteration.
  repeat (break_match; simpl; try discriminate);
    intros [= <- <-]; simpl; repeat split; try assumption;
    try discriminate.
  intros _. apply Hf. apply Z.eqb_eq.
  match goal with
  | H : (_ =? 1) && _ = true |- _ => apply andb_true_iff in H; apply H
  end.
Qed.

Lemma finished_from_pending (max_pages : option Z) (script : list outcome) :
  forall s why sf,
    reachable s ->
    fetch_comments_from max_pages s script = Finished why sf ->
    (why = MaxPages /\ reachable sf)
    \/ exists s0 o, reachable s0 /\ iteration s0 o = Break why sf.
Proof.
  induction script as [|o script IH]; intros s why sf Hs; simpl.
  - destruct (limit_reached max_pages s); [|discriminate].
    intros [= <- <-]. left. split; [reflexivity | exact Hs].
  - destruct (limit_reached max_pages s).
    + intros [= <- <-]. left. split; [reflexivity | exact Hs].
    + destruct (iteration s o) as [s1|why1 s1] eqn:E.
      * apply IH. eapply iteration_reachable; eassumption.
      * intros [= <- <-]. right. exists s, o. split; assumption.
Qed.

(** X2.  Whenever a call on a fresh spider returns, the number it returns
    is the number of records it has collected; the early [return 0] of page
    1 is no exception, since nothing can have been collected by then. *)
Theorem returned_count_is_number_of_records (max_pages : option Z)
  (script : list outcome) (why : stop) (sf : session) :
  fetch_comments max_pages script = Finished why sf ->
  why <> Propagated ->
  returned why sf = Some (Z.of_nat (List.length (comments_data sf))).
Proof.
  unfold fetch_comments. intros F N.
  destruct (finished_from_pending _ _ _ _ _ reachable_init F)
    as [[-> [_ _ Hc _]] | (s0 & o & Hs & B)].
  - simpl. rewrite Hc. reflexivity.
  - destruct (break_keeps_count _ _ _ _ Hs B) as (D & T & _ & Z0).
    destruct why; simpl; rewrite ?T, ?D; try reflexivity.
    + rewrite (Z0 eq_refl). reflexivity.
    + exfalso. apply N. reflexivity.
Qed.

(** Two pages of one review each, then a decoding step that raises an
    exception of the standard library's [json.JSONDecodeError] class
    alone. *)
Lemma returned_count_witness :
  exists sf,
    fetch_comments None
      [page_of (JList [review]) (JInt 2); page_of (JList [review]) (JInt 2);
       Response 200 (DecodeRaises json_decode_error)]
    = Finished DecodeFailure sf
    /\ DecodeFailure <> Propagated
    /\ returned DecodeFailure sf = Some 2
    /\ List.length (comments_data sf) = 2%nat.
Proof.
  eexists. split; [vm_compute; reflexivity|].
  split; [discriminate|].
  split; [|reflexivity].
  apply (returned_count_is_number_of_records None
           [page_of (JList [review]) (JInt 2);
            page_of (JList [review]) (JInt 2);
            Response 200 (DecodeRaises json_decode_error)]).
  - vm_compute. reflexivity.
  - discriminate.
Defined.

(** *** Pacing and page order *)

Lemma continue_events (s s' : session) (o : outcome) :
  iteration s o = Continue s' ->
  exists d, trace s' = trace s ++ [Request (page s); Sleep d].
Proof.
  unfold_iteration.
  repeat (break_match; simpl; try discriminate);
    intros [= <-]; simpl; try rewrite add_items_spec; simpl;
    rewrite <- app_assoc; eexists; reflexivity.
Qed.

Lemma break_events (s s' : session) (o : outcome) (why : stop) :
  iteration s o = Break why s' ->
  trace s' = trace s ++ [Request (page s)].
Proof.
  unfold_iteration.
  repeat (break_match; simpl; try discriminate);
    intros [= <- <-]; reflexivity.
Qed.

(** What one pass adds to the trace: a request, and a sleep exactly when
    the loop goes round again. *)
Lemma iteration_events (s : session) (o : outcome) :
  match iteration s o with
  | Continue s' => exists d, trace s' = trace s ++ [Request (page s); Sleep d]
  | Break _ s' => trace s' = trace s ++ [Request (page s)]
  end.
Proof.
  destruct (iteration s o) as [s'|why s'] eqn:E.
  - eapply continue_events; exact E.
  - eapply break_events; exact E.
Qed.

Lemma pace_app (t1 t2 : list event) :
  forall b,
    pace b (t1 ++ t2) =
    match pace b t1 with
    | Some b' => pace b' t2
    | None => None
    end.
Proof.
  induction t1 as [|[p|d] t1 IH]; intros b; simpl.
  - reflexivity.
  - destruct b; [apply IH | reflexivity].
  - destruct b; [reflexivity | apply IH].
Qed.

Lemma run_pace (max_pages : option Z) (script : list outcome) :
  forall s,
    pace true (trace s) = Some true ->
    match fetch_comments_from max_pages s script with
    | Pending s' => pace true (trace s') = Some true
    | Finished _ s' => pace true (trace s') <> None
    end.
Proof.
  induction script as [|o script IH]; intros s Hs; simpl.
  - destruct (limit_reached max_pages s); [congruence | exact Hs].
  - destruct (limit_reached max_pages s); [congruence|].
    pose proof (iteration_events s o) as E.
    destruct (iteration s o) as [s1|why s1].
    + destruct E as [d E]. apply IH. rewrite E, pace_app, Hs. reflexivity.
    + rewrite E, pace_app, Hs. simpl. discriminate.
Qed.

(** X3.  A run on a fresh spider never posts two requests without sleeping
    in between: its trace starts with a request, requests and sleeps take
    turns, and a run that is about to post has just slept (or has done
    nothing yet). *)
Theorem requests_and_sleeps_take_turns (max_pages : option Z)
  (script : list outcome) :
  pace true (trace (final (fetch_comments max_pages script))) <> None
  /\ (forall s,
        fetch_comments max_pages script = Pending s ->
        pace true (trace s) = Some true)
  /\ (forall t1 t2 p q,
        trace (final (fetch_comments max_pages script)) <>
        t1 ++ Request p :: Request q :: t2).
Proof.
  unfold fetch_comments.
  pose proof (run_pace max_pages script init eq_refl) as H.
  assert (G : pace true
                (trace (final (fetch_comments_from max_pages init script)))
              <> None).
  { destruct (fetch_comments_from max_pages init script); simpl;
      [congruence | exact H]. }
  split; [exact G|]. split.
  - intros s E. rewrite E in H. exact H.
  - intros t1 t2 p q E. apply G. rewrite E, pace_app.
    destruct (pace true t1) as [[|]|]; reflexivity.
Qed.

Lemma last_cons_default (l : list Z) (a d d' : Z) :
  last (a :: l) d = last (a :: l) d'.
Proof.
  revert a. induction l as [|b l IH]; intros a; [reflexivity|].
  change (last (b :: l) d = last (b :: l) d'). apply IH.
Qed.

Lemma stepwise_app (l : list Z) (q : Z) :
  forall p,
    stepwise p (l ++ [q]) =
    stepwise p l && ((q =? last l p) || (q =? last l p + 1)).
Proof.
  induction l as [|a l IH]; intros p.
  - simpl. rewrite andb_true_r. reflexivity.
  - cbn [app stepwise]. rewrite IH, andb_assoc.
    destruct l as [|b l]; [reflexivity|].
    rewrite (last_cons_default (b :: l) a p a). reflexivity.
Qed.

Lemma limit_within (max_pages : option Z) (s : session) :
  limit_reached max_pages s = false -> within max_pages (page s).
Proof.
  unfold limit_reached, within. destruct max_pages as [m|]; [|trivial].
  intros H N. apply Z.eqb_neq in N. rewrite N in H. simpl in H.
  apply Z.ltb_ge in H. exact H.
Qed.

Lemma iteration_page (s : session) (o : outcome) :
  page (session_of (iteration s o)) = page s
  \/ page (session_of (iteration s o)) = page s + 1.
Proof.
  unfold_iteration.
  repeat (break_match; simpl; try rewrite add_items_spec; simpl);
    auto.
Qed.

Lemma iteration_requested (s : session) (o : outcome) :
  requested (trace (session_of (iteration s o))) =
  requested (trace s) ++ [page s].
Proof.
  destruct (iteration_trace s o) as (tl & E & Htl).
  rewrite E, requested_app. simpl. rewrite Htl. reflexivity.
Qed.

Lemma iteration_on_track (max_pages : option Z) (s : session) (o : outcome) :
  on_track max_pages s ->
  limit_reached max_pages s = false ->
  on_track max_pages (session_of (iteration s o)).
Proof.
  intros [St Fi La Bo Pg] L.
  pose proof (iteration_requested s o) as R.
  pose proof (iteration_page s o) as P.
  constructor; rewrite ?R.
  - rewrite stepwise_app, St. simpl.
    destruct La as [La | [_ La]]; rewrite <- La.
    + rewrite Z.eqb_refl. reflexivity.
    + rewrite (Z.eqb_refl (page s)). apply orb_true_r.
  - destruct (requested (trace s)) as [|a l] eqn:Q; simpl in *.
    + destruct La as [La | [N _]]; [exact La | congruence].
    + exact Fi.
  - rewrite last_last.
    destruct P as [P|P]; [left; exact P|].
    right. split; [|exact P].
    destruct (requested (trace s)); discriminate.
  - apply Forall_app. split; [exact Bo|].
    constructor; [|constructor].
    split; [exact Pg | apply limit_within; exact L].
  - destruct P as [P|P]; rewrite P; lia.
Qed.

Lemma run_on_track (max_pages : option Z) (script : list outcome) :
  forall s,
    on_track max_pages s ->
    on_track max_pages (final (fetch_comments_from max_pages s script)).
Proof.
  induction script as [|o script IH]; intros s Hs; simpl.
  - destruct (limit_reached max_pages s); exact Hs.
  - destruct (limit_reached max_pages s) eqn:L; [exact Hs|].
    pose proof (iteration_on_track max_pages s o Hs L) as H.
    destruct (iteration s o) as [s1|why s1]; simpl in *.
    + apply IH. exact H.
    + exact H.
Qed.

(** X4.  The page indexes that a run on a fresh spider asks for start at 1
    and never go back or jump: each is the previous one or the one after
    it.  None is below 1, and under a non-zero page limit none is above the
    limit. *)
Theorem requested_pages_climb_from_one (max_pages : option Z)
  (script : list outcome) :
  hd 1 (requested (trace (final (fetch_comments max_pages script)))) = 1
  /\ stepwise 1
       (requested (trace (final (fetch_comments max_pages script)))) = true
  /\ Forall (fun q => 1 <= q /\ within max_pages q)
       (requested (trace (final (fetch_comments max_pages script)))).
Proof.
  assert (I : on_track max_pages init).
  { constructor; simpl; try reflexivity; try lia; constructor. }
  destruct (run_on_track max_pages script init I) as [St Fi _ Bo _].
  split; [exact Fi|]. split; [exact St | exact Bo].
Qed.

(** *** Records are only ever added *)

Lemma run_extends (max_pages : option Z) (script : list outcome) :
  forall s,
    exists more,
      comments_data (final (fetch_comments_from max_pages s script)) =
      comments_data s ++ more.
Proof.
  induction script as [|o script IH]; intros s; simpl.
  - destruct (limit_reached max_pages s); exists []; simpl;
      rewrite app_nil_r; reflexivity.
  - destruct (limit_reached max_pages s);
      [exists []; simpl; rewrite app_nil_r; reflexivity|].
    pose proof (iteration_records s o) as R.
    destruct (iteration s o) as [s1|why s1]; simpl in R.
    + destruct (IH s1) as [more E]. rewrite E.
      destruct R as [R|[items R]]; rewrite R.
      * exists more. reflexivity.
      * exists (parsed items ++ more). rewrite app_assoc. reflexivity.
    + simpl. destruct R as [R|[items R]]; rewrite R.
      * exists []. rewrite app_nil_r. reflexivity.
      * exists (parsed items). reflexivity.
Qed.

(** X5.  Collected records are never dropped, changed or reordered: what a
    run holds after a longer script starts with what it held after any
    shorter beginning of that script. *)
Theorem records_are_append_only (max_pages : option Z)
  (script more : list outcome) :
  exists added,
    comments_data (final (fetch_comments max_pages (script ++ more))) =
    comments_data (final (fetch_comments max_pages script)) ++ added.
Proof.
  unfold fetch_comments. rewrite fetch_comments_from_app.
  destruct (fetch_comments_from max_pages init script) as [s|why s]; simpl.
  - apply run_extends.
  - exists []. rewrite app_nil_r. reflexivity.
Qed.

(** *** Answers that break the contract *)

(** X6.  A 200 answer whose decoded body is not a mapping holding a mapping
    under ['result'] ends the run at once, whatever the service would have
    answered next: by the malformed-envelope exit when ['result'] is not in
    the body, by the catch-all handler otherwise.  Page index, counter,
    stored total and records stay as they were, and the call returns the
    number of records. *)
Theorem broken_envelope_stops_the_run (max_pages : option Z)
  (pre rest : list outcome) (s : session) (result : value) :
  fetch_comments max_pages pre = Pending s ->
  enveloped result = false ->
  exists why sf,
    fetch_comments max_pages (pre ++ Response 200 (Decoded result) :: rest)
    = Finished why sf
    /\ (why = BadEnvelope \/ why = UnknownError)
    /\ (why = BadEnvelope <-> contains "result" result = Ok false)
    /\ comments_data sf = comments_data s
    /\ page sf = page s
    /\ consecutive_empty sf = consecutive_empty s
    /\ total_count_from_api sf = total_count_from_api s
    /\ requests sf = S (List.length pre)
    /\ returned why sf = Some (Z.of_nat (List.length (comments_data s))).
Proof.
  unfold fetch_comments. intros E Hv.
  pose proof (run_reachable _ _ _ _ reachable_init E) as [_ _ Hn _].
  pose proof (pending_requests _ _ _ _ E) as R.
  pose proof (pending_not_limited _ _ _ _ E) as L.
  change (requests init) with 0%nat in R.
  pose proof (iteration_requests s (Response 200 (Decoded result))) as R1.
  assert (B : exists why,
             iteration s (Response 200 (Decoded result)) =
             Break why (bind_response (emit (Request (page s)) s))
             /\ (why = BadEnvelope \/ why = UnknownError)
             /\ (why = BadEnvelope <-> contains "result" result = Ok false)).
  { unfold iteration, on_result, except, handler_of, python_error. simpl.
    destruct result as [|b|z|m e|u|l|d]; simpl;
      try (exists UnknownError; split; [reflexivity|];
           split; [right; reflexivity|]; split; discriminate).
    - destruct (is_substring "result" u);
        [exists UnknownError | exists BadEnvelope];
        (split; [reflexivity|]); split; auto; split; congruence.
    - destruct (existsb (is_str "result") l);
        [exists UnknownError | exists BadEnvelope];
        (split; [reflexivity|]); split; auto; split; congruence.
    - simpl in Hv. unfold envelope, get, get_or.
      destruct (lookup d "result") as [v|]; simpl.
      + exists UnknownError.
        destruct v; try discriminate Hv; simpl;
          (split; [reflexivity|]); (split; [right; reflexivity|]);
          split; discriminate.
      + exists BadEnvelope. split; [reflexivity|]. split; auto.
        split; reflexivity. }
  destruct B as (why & B & W & Wc).
  rewrite B in R1. simpl session_of in R1.
  rewrite fetch_comments_from_app, E. cbn [fetch_comments_from].
  rewrite L, B. exists why. eexists. split; [reflexivity|].
  split; [exact W|]. split; [exact Wc|].
  split; [reflexivity|]. split; [reflexivity|]. split; [reflexivity|].
  split; [reflexivity|]. split; [lia|].
  destruct W as [-> | ->]; simpl; rewrite Hn; reflexivity.
Qed.

(** One page with a review, then a body that is a JSON list. *)
Lemma broken_envelope_witness :
  (exists s,
     fetch_comments None [page_of (JList [review]) (JInt 3)] = Pending s)
  /\ enveloped (JList [JStr "result"]) = false
  /\ exists why sf,
       fetch_comments None
         ([page_of (JList [review]) (JInt 3)] ++
          Response 200 (Decoded (JList [JStr "result"])) ::
          [page_of (JList [review]) (JInt 3)])
       = Finished why sf
       /\ (why = BadEnvelope \/ why = UnknownError)
       /\ List.length (comments_data sf) = 1%nat
       /\ requests sf = 2%nat.
Proof.
  split; [eexists; vm_compute; reflexivity|].
  split; [reflexivity|].
  destruct (broken_envelope_stops_the_run None
              [page_of (JList [review]) (JInt 3)]
              [page_of (JList [review]) (JInt 3)]
              (final (fetch_comments None
                        [page_of (JList [review]) (JInt 3)]))
              (JList [JStr "result"]))
    as (why & sf & F & W & _ & D & _ & _ & _ & R & _).
  - vm_compute. reflexivity.
  - reflexivity.
  - exists why, sf. split; [exact F|]. split; [exact W|].
    split; [rewrite D; reflexivity | exact R].
Defined.

(** *** Countable failures across transient errors *)

Lemma limit_page (max_pages : option Z) (a b : session) :
  page b <= page a ->
  limit_reached max_pages a = false ->
  limit_reached max_pages b = false.
Proof.
  unfold limit_reached. destruct max_pages as [m|]; [|reflexivity].
  intros Hp. destruct (m =? 0); simpl; [reflexivity|].
  rewrite !Z.ltb_ge. lia.
Qed.

Lemma transients_then (max_pages : option Z) (ts rest : list outcome) :
  forall s,
    Forall (fun o => transient o = true) ts ->
    limit_reached max_pages s = false ->
    exists s',
      fetch_comments_from max_pages s (ts ++ rest) =
      fetch_comments_from max_pages s' rest
      /\ page s' = page s
      /\ consecutive_empty s' = consecutive_empty s
      /\ comments_data s' = comments_data s
      /\ requests s' = (requests s + List.length ts)%nat.
Proof.
  induction ts as [|o ts IH]; intros s Hts L.
  - exists s. simpl. repeat split; lia.
  - inversion Hts as [|o' ts' Ho Hts']; subst.
    destruct (transient_step s o Ho) as [d E].
    pose proof (iteration_requests s o) as R. rewrite E in R. simpl in R.
    destruct (IH (sleep d (emit (Request (page s)) s)) Hts' L)
      as (s' & A & P & C & D & Q).
    exists s'. cbn [fetch_comments_from app]. rewrite L, E.
    split; [exact A|]. split; [exact P|]. split; [exact C|].
    split; [exact D|]. rewrite Q, R. simpl. lia.
Qed.

Lemma countable_then (max_pages : option Z) (f : outcome)
  (rest : list outcome) (s : session) :
  countable f = true ->
  limit_reached max_pages s = false ->
  consecutive_empty s + 1 < max_consecutive_empty ->
  exists s',
    fetch_comments_from max_pages s (f :: rest) =
    fetch_comments_from max_pages s' rest
    /\ page s <= page s' <= page s + 1
    /\ consecutive_empty s' = consecutive_empty s + 1
    /\ comments_data s' = comments_data s
    /\ requests s' = S (requests s).
Proof.
  intros C L H.
  destruct (countable_step s f C) as (D & _ & K & [[G _]|[_ E]]); [lia|].
  pose proof (iteration_requests s f) as R.
  pose proof (iteration_page s f) as P.
  exists (session_of (iteration s f)).
  cbn [fetch_comments_from]. rewrite L, E. simpl session_of.
  rewrite E in D, K, R, P. simpl in D, K, R, P.
  split; [reflexivity|]. split; [lia|]. split; [exact K|].
  split; [exact D | exact R].
Qed.

Lemma countable_last (max_pages : option Z) (f : outcome)
  (rest : list outcome) (s : session) :
  countable f = true ->
  limit_reached max_pages s = false ->
  max_consecutive_empty <= consecutive_empty s + 1 ->
  exists why sf,
    fetch_comments_from max_pages s (f :: rest) = Finished why sf
    /\ ceiling why = true
    /\ comments_data sf = comments_data s
    /\ requests sf = S (requests s).
Proof.
  intros C L H.
  destruct (countable_step s f C)
    as (D & _ & K & [[_ (why & E & W)]|[G _]]); [|lia].
  pose proof (iteration_requests s f) as R.
  exists why, (session_of (iteration s f)).
  cbn [fetch_comments_from]. rewrite L, E. simpl session_of.
  rewrite E in D, R. simpl in D, R.
  split; [reflexivity|].
  split; [destruct W as [-> | ->]; reflexivity|].
  split; [exact D | exact R].
Qed.

(** X7.  Timeouts and connection errors do not reset the
    consecutive-failure counter: three countable failures end the run even
    when any number of timeouts or connection errors come before, between
    and after them, as long as no page is processed in between and the page
    limit does not cut the run short.  The records are those held before
    the first of the failures. *)
Theorem transient_errors_do_not_reset_the_counter (max_pages : option Z)
  (pre t0 t1 t2 rest : list outcome) (f1 f2 f3 : outcome) (s : session) :
  fetch_comments max_pages pre = Pending s ->
  consecutive_empty s = 0 ->
  Forall (fun o => transient o = true) t0 ->
  Forall (fun o => transient o = true) t1 ->
  Forall (fun o => transient o = true) t2 ->
  countable f1 = true ->
  countable f2 = true ->
  countable f3 = true ->
  limit_reached max_pages (next_page (next_page s)) = false ->
  exists why sf,
    fetch_comments max_pages
      (pre ++ t0 ++ f1 :: t1 ++ f2 :: t2 ++ f3 :: rest) = Finished why sf
    /\ ceiling why = true
    /\ comments_data sf = comments_data s
    /\ requests sf =
       (List.length pre + List.length t0 + List.length t1 + List.length t2
        + 3)%nat.
Proof.
  unfold fetch_comments. intros E C0 T0 T1 T2 F1 F2 F3 L.
  pose proof (pending_requests _ _ _ _ E) as R.
  change (requests init) with 0%nat in R.
  rewrite fetch_comments_from_app, E.
  assert (Lp : forall x, page x <= page s + 2 ->
                         limit_reached max_pages x = false).
  { intros x Hx. apply (limit_page max_pages (next_page (next_page s)) x);
      [simpl; lia | exact L]. }
  unfold max_consecutive_empty in *.
  destruct (transients_then max_pages t0 (f1 :: t1 ++ f2 :: t2 ++ f3 :: rest)
              s T0) as (a & -> & Pa & Ca & Da & Ra); [apply Lp; lia|].
  destruct (countable_then max_pages f1 (t1 ++ f2 :: t2 ++ f3 :: rest) a F1)
    as (b & -> & Pb & Cb & Db & Rb);
    [apply Lp; lia | unfold max_consecutive_empty; lia|].
  destruct (transients_then max_pages t1 (f2 :: t2 ++ f3 :: rest) b T1)
    as (c & -> & Pc & Cc & Dc & Rc); [apply Lp; lia|].
  destruct (countable_then max_pages f2 (t2 ++ f3 :: rest) c F2)
    as (d & -> & Pd & Cd & Dd & Rd);
    [apply Lp; lia | unfold max_consecutive_empty; lia|].
  destruct (transients_then max_pages t2 (f3 :: rest) d T2)
    as (e & -> & Pe & Ce & De & Re); [apply Lp; lia|].
  destruct (countable_last max_pages f3 rest e F3)
    as (why & sf & -> & W & Df & Rf);
    [apply Lp; lia | unfold max_consecutive_empty; lia|].
  exists why, sf. split; [reflexivity|]. split; [exact W|].
  split; [congruence | lia].
Qed.

(** After one good page: 500, two timeouts, a bare [RequestException], a
    timeout, 500. *)
Lemma transient_errors_do_not_reset_witness :
  exists why sf,
    fetch_comments None
      ([page_of (JList [review]) (JInt 9)] ++
       [] ++ http_500 ::
       [PostRaises timeout_error; PostRaises timeout_error] ++
       PostRaises request_error ::
       [PostRaises timeout_error] ++
       http_500 :: [page_of (JList [review]) (JInt 9)])
    = Finished why sf
    /\ ceiling why = true
    /\ List.length (comments_data sf) = 1%nat
    /\ requests sf = 7%nat.
Proof.
  destruct (transient_errors_do_not_reset_the_counter None
              [page_of (JList [review]) (JInt 9)] []
              [PostRaises timeout_error; PostRaises timeout_error]
              [PostRaises timeout_error]
              [page_of (JList [review]) (JInt 9)]
              http_500 (PostRaises request_error) http_500
              (final (fetch_comments None
                        [page_of (JList [review]) (JInt 9)])))
    as (why & sf & F & W & D & R);
    try (vm_compute; reflexivity); try (repeat constructor).
  exists why, sf. split; [exact F|]. split; [exact W|].
  split; [rewrite D; reflexivity | exact R].
Defined.

(** ** Further properties of the item parser *)

Lemma before_space_no_space (s : string) : no_space (before_space s) = true.
Proof.
  induction s as [|c s IH]; simpl; [reflexivity|].
  destruct (Ascii.eqb c " ") eqn:E; simpl; [reflexivity|].
  rewrite E, IH. reflexivity.
Qed.

Lemma before_space_split (s : string) :
  exists rest,
    s = (before_space s ++ rest)%string
    /\ (rest = "" \/ exists r, rest = String " " r).
Proof.
  induction s as [|c s (rest & E & H)]; simpl.
  - exists "". split; [reflexivity | left; reflexivity].
  - destruct (Ascii.eqb c " ") eqn:C; simpl.
    + apply Ascii.eqb_eq in C. subst c.
      exists (String " " s). split; [reflexivity|]. right. exists s.
      reflexivity.
    + exists rest. split; [rewrite <- E; reflexivity | exact H].
Qed.

Lemma recommend_tags_is_str (d : list (string * value)) (v : value) :
  recommend_tags (JDict d) = Ok v -> exists tags, v = JStr tags.
Proof.
  unfold recommend_tags; simpl.
  destruct (truthy (get_or d "recommendItems" (JList []))).
  - destruct (join "," (get_or d "recommendItems" (JList []))) as [t|];
      simpl; [|discriminate].
    intros [= <-]. exists t. reflexivity.
  - intros [= <-]. exists "". reflexivity.
Qed.

Lemma image_count_is_length (d : list (string * value)) (v : value) :
  image_count (JDict d) = Ok v ->
  exists n,
    v = JInt n
    /\ 0 <= n
    /\ (n = 0 <-> truthy (get_or d "images" JNull) = false).
Proof.
  unfold image_count; simpl. unfold get_or.
  destruct (lookup d "images") as [[|b|z|m e|u|l|u]|]; simpl;
    try (intros [= <-]; exists 0; split; [reflexivity|];
         split; [lia|]; split; reflexivity).
  - destruct b; simpl; [discriminate|].
    intros [= <-]. exists 0. split; [reflexivity|]. split; [lia|].
    split; reflexivity.
  - destruct (z =? 0); simpl; [|discriminate].
    intros [= <-]. exists 0. split; [reflexivity|]. split; [lia|].
    split; reflexivity.
  - destruct (m =? 0); simpl; [|discriminate].
    intros [= <-]. exists 0. split; [reflexivity|]. split; [lia|].
    split; reflexivity.
  - destruct u as [|c u]; simpl; intros [= <-].
    + exists 0. split; [reflexivity|]. split; [lia|]. split; reflexivity.
    + eexists. split; [reflexivity|]. split; [lia|].
      split; [lia | discriminate].
  - destruct l as [|x l]; simpl; intros [= <-].
    + exists 0. split; [reflexivity|]. split; [lia|]. split; reflexivity.
    + eexists. split; [reflexivity|]. split; [lia|].
      split; [lia | discriminate].
  - destruct u as [|x u]; simpl; intros [= <-].
    + exists 0. split; [reflexivity|]. split; [lia|]. split; reflexivity.
    + eexists. split; [reflexivity|]. split; [lia|].
      split; [lia | discriminate].
Qed.

(** X8.  Whatever the item holds, three fields of an emitted record have a
    fixed type: the date and the tags are strings, and the image count is
    an integer that is never negative and is 0 exactly when the item's
    [images] value is missing or falsy. *)
Theorem emitted_record_field_types (d : list (string * value))
  (c : comment) :
  _parse_comment (JDict d) = Some c ->
  exists date tags n,
    lookup c k_time = Some (JStr date)
    /\ lookup c k_tags = Some (JStr tags)
    /\ lookup c k_images = Some (JInt n)
    /\ 0 <= n
    /\ (n = 0 <-> truthy (get_or d "images" JNull) = false).
Proof.
  unfold _parse_comment. rewrite parse_body_dict.
  destruct (recommend_tags (JDict d)) as [tags|] eqn:T; simpl;
    [|discriminate].
  destruct (image_count (JDict d)) as [images|] eqn:I; simpl;
    [|discriminate].
  intros [= <-].
  destruct (recommend_tags_is_str d tags T) as [t ->].
  destruct (image_count_is_length d images I) as (n & -> & Hn & Hz).
  rewrite publish_date_degrades.
  assert (Hd : exists date, degraded_date d = JStr date).
  { unfold degraded_date.
    destruct (get_or d "publishTypeTag" (JStr "")); eexists; reflexivity. }
  destruct Hd as [date Hd]. rewrite Hd.
  exists date, t, n. repeat split; try assumption; apply Hz.
Qed.

(** An item whose date tag is a number and whose images are a string. *)
Lemma emitted_record_field_types_witness :
  exists date tags n,
    lookup
      [(k_user, anonymous); (k_time, JStr ""); (k_content, JStr "");
       (k_ip, JStr ""); (k_score, JStr ""); (k_tags, JStr "a,b");
       (k_useful, JInt 0); (k_id, JStr ""); (k_images, JInt 2);
       (k_reply, JInt 0); (k_identity, JStr "")] k_time
    = Some (JStr date)
    /\ lookup
         [(k_user, anonymous); (k_time, JStr ""); (k_content, JStr "");
          (k_ip, JStr ""); (k_score, JStr ""); (k_tags, JStr "a,b");
          (k_useful, JInt 0); (k_id, JStr ""); (k_images, JInt 2);
          (k_reply, JInt 0); (k_identity, JStr "")] k_tags
       = Some (JStr tags)
    /\ lookup
         [(k_user, anonymous); (k_time, JStr ""); (k_content, JStr "");
          (k_ip, JStr ""); (k_score, JStr ""); (k_tags, JStr "a,b");
          (k_useful, JInt 0); (k_id, JStr ""); (k_images, JInt 2);
          (k_reply, JInt 0); (k_identity, JStr "")] k_images
       = Some (JInt n)
    /\ 0 <= n
    /\ (n = 0 <->
        truthy
          (get_or
             [("publishTypeTag", JInt 7); ("images", JStr "xy");
              ("recommendItems", JStr "ab")] "images" JNull) = false).
Proof.
  apply (emitted_record_field_types
           [("publishTypeTag", JInt 7); ("images", JStr "xy");
            ("recommendItems", JStr "ab")]).
  reflexivity.
Defined.

(** X9.  When the item's [publishTypeTag] is a string, the date of the
    emitted record is that string up to, and not including, its first
    space: the date holds no space, and what follows it in the tag is
    nothing or starts with a space.  A tag that starts with a space gives
    an empty date. *)
Theorem date_is_tag_up_to_first_space (d : list (string * value))
  (c : comment) (tag : string) :
  _parse_comment (JDict d) = Some c ->
  get_or d "publishTypeTag" (JStr "") = JStr tag ->
  exists date rest,
    lookup c k_time = Some (JStr date)
    /\ tag = (date ++ rest)%string
    /\ no_space date = true
    /\ (rest = "" \/ exists r, rest = String " " r).
Proof.
  unfold _parse_comment. rewrite parse_body_dict.
  destruct (recommend_tags (JDict d)) as [tags|]; simpl; [|discriminate].
  destruct (image_count (JDict d)) as [images|]; simpl; [|discriminate].
  intros [= <-] Ht.
  rewrite publish_date_degrades. unfold degraded_date. rewrite Ht.
  destruct (before_space_split tag) as (rest & E & H).
  exists (before_space tag), rest.
  split; [reflexivity|]. split; [exact E|].
  split; [apply before_space_no_space | exact H].
Qed.

Lemma date_is_tag_up_to_first_space_witness :
  exists date rest,
    lookup
      [(k_user, anonymous); (k_time, JStr "2024-05-01");
       (k_content, JStr ""); (k_ip, JStr ""); (k_score, JStr "");
       (k_tags, JStr ""); (k_useful, JInt 0); (k_id, JStr "");
       (k_images, JInt 0); (k_reply, JInt 0); (k_identity, JStr "")] k_time
    = Some (JStr date)
    /\ "2024-05-01 posted from app" = (date ++ rest)%string
    /\ no_space date = true
    /\ (rest = "" \/ exists r, rest = String " " r).
Proof.
  apply (date_is_tag_up_to_first_space
           [("publishTypeTag", JStr "2024-05-01 posted from app")]);
    reflexivity.
Defined.

(** ** Further properties of the persisted table *)

Lemma mem_app (k : string) (a b : list string) :
  mem k (a ++ b) = mem k a || mem k b.
Proof. unfold mem. apply existsb_app. Qed.

Lemma mem_add_keys (k : string) (ks : list string) :
  forall cols,
    mem k (fold_left
             (fun cols k' => if mem k' cols then cols else cols ++ [k'])
             ks cols)
    = mem k cols || mem k ks.
Proof.
  induction ks as [|k' ks IH]; intros cols; simpl.
  - rewrite orb_false_r. reflexivity.
  - rewrite IH. destruct (mem k' cols) eqn:M.
    + destruct (String.eqb k k') eqn:E; simpl.
      * apply String.eqb_eq in E. subst k'. rewrite M. reflexivity.
      * reflexivity.
    + rewrite mem_app. simpl. rewrite orb_false_r, orb_assoc. reflexivity.
Qed.

Lemma mem_df_columns (k : string) (records : list comment) :
  mem k (df_columns records) =
  existsb (fun rec => mem k (keys rec)) records.
Proof.
  unfold df_columns.
  assert (G : forall cols,
             mem k (fold_left
                      (fun cols rec =>
                         fold_left
                           (fun cols k' =>
                              if mem k' cols then cols else cols ++ [k'])
                           (keys rec) cols)
                      records cols)
             = mem k cols || existsb (fun rec => mem k (keys rec)) records).
  { induction records as [|rec records IH]; intros cols; simpl.
    - rewrite orb_false_r. reflexivity.
    - rewrite IH, mem_add_keys, orb_assoc. reflexivity. }
  rewrite G. reflexivity.
Qed.

Lemma mem_In (k : string) (l : list string) : mem k l = true <-> In k l.
Proof.
  unfold mem. rewrite existsb_exists. split.
  - intros (x & Hx & E). apply String.eqb_eq in E. subst x. exact Hx.
  - intros H. exists k. split; [exact H | apply String.eqb_refl].
Qed.

(** X10.  For any non-empty collection of records, whatever their keys,
    [save_to_csv] writes as header the columns of [columns_order] that are
    a key of at least one record, in the order of [columns_order] and each
    once; a key that [columns_order] does not list never becomes a
    column. *)
Theorem csv_header_is_columns_order_restricted (records : list comment)
  (col : string) :
  records <> [] ->
  exists header,
    save_to_csv records = Some header
    /\ header =
       filter (fun c => existsb (fun rec => mem c (keys rec)) records)
         columns_order
    /\ NoDup header
    /\ (In col header <->
        In col columns_order
        /\ exists rec, In rec records /\ In col (keys rec)).
Proof.
  intros Hne. destruct records as [|r records]; [congruence|].
  unfold save_to_csv, existing_columns.
  assert (E : filter (fun c => mem c (df_columns (r :: records)))
                columns_order =
              filter (fun c =>
                        existsb (fun rec => mem c (keys rec)) (r :: records))
                columns_order).
  { apply filter_ext. intros c. apply mem_df_columns. }
  rewrite E. eexists. split; [reflexivity|]. split; [reflexivity|]. split.
  - apply NoDup_filter. unfold columns_order.
    repeat (constructor; [simpl; intros H;
                          repeat (destruct H as [H|H]; [discriminate H|]);
                          exact H|]).
    constructor.
  - rewrite filter_In, existsb_exists. split.
    + intros [Hc (rec & Hr & Hm)]. split; [exact Hc|].
      exists rec. split; [exact Hr | apply mem_In; exact Hm].
    + intros [Hc (rec & Hr & Hm)]. split; [exact Hc|].
      exists rec. split; [exact Hr | apply mem_In; exact Hm].
Qed.

(** Two records with odd keys: only the known ones become columns, in the
    order of [columns_order]. *)
Lemma csv_header_witness :
  [[(k_id, JInt 1); ("extra", JInt 0)]; [(k_user, JStr "a")]] <> []
  /\ exists header,
       save_to_csv
         [[(k_id, JInt 1); ("extra", JInt 0)]; [(k_user, JStr "a")]]
       = Some header
       /\ header = [k_user; k_id].
Proof.
  split; [discriminate|].
  destruct (csv_header_is_columns_order_restricted
              [[(k_id, JInt 1); ("extra", JInt 0)]; [(k_user, JStr "a")]]
              "extra")
    as (header & S & E & _).
  - discriminate.
  - exists header. split; [exact S|]. rewrite E. reflexivity.
Defined.

(** ** The identifier look-ups *)

Lemma star_of_k (cls : ascii -> bool) (k : string -> option string)
  (t : string) :
  k t <> None -> Re.star cls k t <> None.
Proof.
  destruct t as [|c t]; simpl; [trivial|].
  intros H. destruct (cls c); [|exact H].
  destruct (Re.star cls k t); [discriminate | exact H].
Qed.

Lemma star_sound (cls : ascii -> bool) (k : string -> option string) :
  forall t g,
    Re.star cls k t = Some g ->
    exists ws rest,
      t = (ws ++ rest)%string
      /\ Re.all_in cls ws = true
      /\ k rest = Some g.
Proof.
  induction t as [|c t IH]; intros g; simpl.
  - intros H. exists "", "". repeat split. exact H.
  - destruct (cls c) eqn:C.
    + destruct (Re.star cls k t) as [g0|] eqn:S.
      * intros [= <-]. destruct (IH g0 eq_refl) as (ws & rest & E & A & K).
        exists (String c ws), rest. simpl. rewrite C, A, <- E.
        repeat split. exact K.
      * intros H. exists "", (String c t). repeat split. exact H.
    + intros H. exists "", (String c t). repeat split. exact H.
Qed.

Lemma star_complete (cls : ascii -> bool) (k : string -> option string) :
  forall ws rest,
    Re.all_in cls ws = true ->
    k rest <> None ->
    Re.star cls k (ws ++ rest)%string <> None.
Proof.
  induction ws as [|c ws IH]; intros rest A K; simpl.
  - apply star_of_k. exact K.
  - simpl in A. apply andb_true_iff in A. destruct A as [C A].
    rewrite C. specialize (IH rest A K).
    destruct (Re.star cls k (ws ++ rest)%string); [discriminate|].
    congruence.
Qed.

Lemma plus_sound (cls : ascii -> bool) (k : string -> option string) :
  forall t g,
    Re.plus_group cls k t = Some g ->
    exists rest,
      t = (g ++ rest)%string
      /\ g <> ""
      /\ Re.all_in cls g = true
      /\ k rest <> None.
Proof.
  induction t as [|c t IH]; intros g; simpl; [discriminate|].
  destruct (cls c) eqn:C; [|discriminate].
  destruct (Re.plus_group cls k t) as [g0|] eqn:P.
  - intros [= <-]. destruct (IH g0 eq_refl) as (rest & E & N & A & K).
    exists rest. simpl. rewrite C, A, <- E.
    repeat split; [discriminate | exact K].
  - destruct (k t) eqn:K; [|discriminate].
    intros [= <-]. exists t. simpl. rewrite C.
    repeat split; [discriminate | congruence].
Qed.

Lemma plus_complete (cls : ascii -> bool) (k : string -> option string) :
  forall g rest,
    g <> "" ->
    Re.all_in cls g = true ->
    k rest <> None ->
    Re.plus_group cls k (g ++ rest)%string <> None.
Proof.
  induction g as [|c g IH]; intros rest N A K; [congruence|].
  simpl in *. apply andb_true_iff in A. destruct A as [C A]. rewrite C.
  destruct g as [|c' g].
  - simpl. destruct (Re.plus_group cls k rest); [discriminate|].
    destruct (k rest); [discriminate | congruence].
  - assert (H : Re.plus_group cls k (String c' g ++ rest)%string <> None).
    { apply IH; [discriminate | exact A | exact K]. }
    destruct (Re.plus_group cls k (String c' g ++ rest)%string);
      [discriminate | congruence].
Qed.

(** When nothing has to follow the group, it takes every character of the
    class that is there. *)
Lemma plus_maximal (cls : ascii -> bool) (k : string -> option string) :
  (forall t, k t <> None) ->
  forall t g,
    Re.plus_group cls k t = Some g ->
    exists rest, t = (g ++ rest)%string /\ Re.stops cls rest = true.
Proof.
  intros Hk. induction t as [|c t IH]; intros g; simpl; [discriminate|].
  destruct (cls c) eqn:C; [|discriminate].
  destruct (Re.plus_group cls k t) as [g0|] eqn:P.
  - intros [= <-]. destruct (IH g0 eq_refl) as (rest & E & S).
    exists rest. simpl. rewrite <- E. split; [reflexivity | exact S].
  - destruct (k t) eqn:K; [|discriminate].
    intros [= <-]. exists t. split; [reflexivity|].
    destruct t as [|c' t]; [reflexivity|]. simpl in *.
    destruct (cls c'); [|reflexivity].
    destruct (Re.plus_group cls k t); [discriminate|].
    specialize (Hk t). destruct (k t); [discriminate | congruence].
Qed.

Lemma lits_match (w : string) (r : list Re.atom) :
  forall t g,
    Re.match_here (Re.lits w ++ r) t = Some g <->
    exists t', t = (w ++ t')%string /\ Re.match_here r t' = Some g.
Proof.
  induction w as [|c w IH]; intros t g; simpl.
  - split.
    + intros H. exists t. split; [reflexivity | exact H].
    + intros (t' & -> & H). exact H.
  - destruct t as [|c' t].
    + split; [discriminate|]. intros (t' & E & _). discriminate E.
    + destruct (Ascii.eqb c' c) eqn:C.
      * apply Ascii.eqb_eq in C. subst c'. rewrite IH. split.
        -- intros (t' & -> & H). exists t'. split; [reflexivity | exact H].
        -- intros (t' & [= ->] & H). exists t'.
           split; [reflexivity | exact H].
      * split; [discriminate|]. intros (t' & [= -> _] & _).
        rewrite Ascii.eqb_refl in C. discriminate C.
Qed.

Lemma lit_match (c : ascii) (r : list Re.atom) (t g : string) :
  Re.match_here (Re.Lit c :: r) t = Some g <->
  exists t', t = String c t' /\ Re.match_here r t' = Some g.
Proof.
  simpl. destruct t as [|c' t].
  - split; [discriminate|]. intros (t' & E & _). discriminate E.
  - destruct (Ascii.eqb c' c) eqn:C.
    + apply Ascii.eqb_eq in C. subst c'. split.
      * intros H. exists t. split; [reflexivity | exact H].
      * intros (t' & [= ->] & H). exact H.
    + split; [discriminate|]. intros (t' & [= -> _] & _).
      rewrite Ascii.eqb_refl in C. discriminate C.
Qed.

Lemma search_sound (re : list Re.atom) :
  forall t g,
    Re.search re t = Some g ->
    exists pre suf,
      t = (pre ++ suf)%string
      /\ Re.match_here re suf = Some g
      /\ (forall pre' suf',
            t = (pre' ++ suf')%string ->
            (String.length pre' < String.length pre)%nat ->
            Re.match_here re suf' = None).
Proof.
  induction t as [|c t IH]; intros g; simpl.
  - destruct (Re.match_here re "") eqn:M; [|discriminate].
    intros [= <-]. exists "", "". split; [reflexivity|].
    split; [exact M|]. intros pre' suf' _ L. simpl in L. lia.
  - destruct (Re.match_here re (String c t)) eqn:M.
    + intros [= <-]. exists "", (String c t). split; [reflexivity|].
      split; [exact M|]. intros pre' suf' _ L. simpl in L. lia.
    + intros H. destruct (IH g H) as (pre & suf & E & Hm & Hl).
      exists (String c pre), suf. simpl. rewrite <- E.
      split; [reflexivity|]. split; [exact Hm|].
      intros pre' suf' E' L. destruct pre' as [|c' pre'].
      * simpl in E'. subst suf'. exact M.
      * simpl in E'. injection E' as _ E'. simpl in L.
        apply (Hl pre' suf' E'). lia.
Qed.

Lemma search_complete (re : list Re.atom) :
  forall pre suf,
    Re.match_here re suf <> None ->
    Re.search re (pre ++ suf)%string <> None.
Proof.
  induction pre as [|c pre IH]; intros suf M.
  - simpl. destruct suf as [|c suf]; simpl;
      destruct (Re.match_here re _); congruence.
  - simpl. destruct (Re.match_here re (String c (pre ++ suf))).
    + discriminate.
    + apply IH. exact M.
Qed.

(** X11.  [extract_page_id_from_url] returns an identifier exactly when
    the URL holds a slash, one or more digits and [.html] in a row; the
    identifier is then a non-empty string of digits that stands in the URL
    between a slash and [.html]. *)
Theorem page_id_stands_between_slash_and_html (is_digit : ascii -> bool)
  (url : string) :
  (forall id,
     extract_page_id_from_url is_digit url = Some id ->
     id <> ""
     /\ Re.all_in is_digit id = true
     /\ exists pre post,
          url = (pre ++ "/" ++ id ++ ".html" ++ post)%string)
  /\ (forall pre id post,
        url = (pre ++ "/" ++ id ++ ".html" ++ post)%string ->
        id <> "" ->
        Re.all_in is_digit id = true ->
        extract_page_id_from_url is_digit url <> None).
Proof.
  unfold extract_page_id_from_url, url_pattern. split.
  - intros id H.
    destruct (search_sound _ _ _ H) as (pre & suf & E & M & _).
    apply lit_match in M. destruct M as (t1 & -> & M).
    change (Re.plus_group is_digit (Re.match_here (Re.lits ".html")) t1
            = Some id) in M.
    destruct (plus_sound _ _ _ _ M) as (rest & E1 & N & A & K).
    split; [exact N|]. split; [exact A|].
    destruct (Re.match_here (Re.lits ".html") rest) as [g|] eqn:L;
      [|congruence].
    rewrite <- (app_nil_r (Re.lits ".html")) in L.
    apply lits_match in L. destruct L as (post & -> & _).
    exists pre, post. rewrite E, E1. reflexivity.
  - intros pre id post E N A. subst url.
    apply search_complete.
    change (Re.plus_group is_digit (Re.match_here (Re.lits ".html"))
              (id ++ ".html" ++ post)%string <> None).
    apply plus_complete; [exact N | exact A|].
    simpl. discriminate.
Qed.

Lemma page_id_witness :
  extract_page_id_from_url py_digit
    "https://you.ctrip.com/sight/longnan2424/4383341.html"
  = Some "4383341"
  /\ "4383341" <> ""
  /\ Re.all_in py_digit "4383341" = true
  /\ exists pre post,
       "https://you.ctrip.com/sight/longnan2424/4383341.html" =
       (pre ++ "/" ++ "4383341" ++ ".html" ++ post)%string.
Proof.
  split; [reflexivity|].
  apply (proj1 (page_id_stands_between_slash_and_html py_digit
                  "https://you.ctrip.com/sight/longnan2424/4383341.html")).
  reflexivity.
Defined.

Lemma poi_match_sound (is_space is_digit : ascii -> bool) (suf id : string) :
  Re.match_here (poi_pattern is_space is_digit) suf = Some id ->
  exists ws1 ws2 post,
    suf = (quoted_poiId ++ ws1 ++ ":" ++ ws2 ++ id ++ post)%string
    /\ Re.all_in is_space ws1 = true
    /\ Re.all_in is_space ws2 = true
    /\ id <> ""
    /\ Re.all_in is_digit id = true
    /\ Re.stops is_digit post = true.
Proof.
  unfold poi_pattern. intros M.
  apply lits_match in M. destruct M as (t1 & -> & M).
  change (Re.star is_space
            (Re.match_here
               [Re.Lit ":"; Re.Star is_space; Re.GroupPlus is_digit]) t1
          = Some id) in M.
  destruct (star_sound _ _ _ _ M) as (ws1 & t2 & -> & A1 & M2).
  apply lit_match in M2. destruct M2 as (t3 & -> & M3).
  change (Re.star is_space (Re.match_here [Re.GroupPlus is_digit]) t3
          = Some id) in M3.
  destruct (star_sound _ _ _ _ M3) as (ws2 & t4 & -> & A2 & M4).
  change (Re.plus_group is_digit (Re.match_here []) t4 = Some id) in M4.
  destruct (plus_sound _ _ _ _ M4) as (_ & _ & N & A & _).
  assert (Hk : forall t : string, Re.match_here [] t <> None)
    by (intros t; simpl; discriminate).
  destruct (plus_maximal is_digit (Re.match_here []) Hk t4 id M4)
    as (post & -> & S).
  exists ws1, ws2, post. repeat split; assumption.
Qed.

Lemma poi_match_complete (is_space is_digit : ascii -> bool)
  (ws1 ws2 id post : string) :
  Re.all_in is_space ws1 = true ->
  Re.all_in is_space ws2 = true ->
  id <> "" ->
  Re.all_in is_digit id = true ->
  Re.match_here (poi_pattern is_space is_digit)
    (quoted_poiId ++ ws1 ++ ":" ++ ws2 ++ id ++ post)%string <> None.
Proof.
  intros A1 A2 N A. unfold poi_pattern.
  assert (H : Re.match_here
                [Re.Star is_space; Re.Lit ":"; Re.Star is_space;
                 Re.GroupPlus is_digit]
                (ws1 ++ ":" ++ ws2 ++ id ++ post)%string <> None).
  { change (Re.star is_space
              (Re.match_here
                 [Re.Lit ":"; Re.Star is_space; Re.GroupPlus is_digit])
              (ws1 ++ ":" ++ ws2 ++ id ++ post)%string <> None).
    apply star_complete; [exact A1|].
    change (Re.star is_space (Re.match_here [Re.GroupPlus is_digit])
              (ws2 ++ id ++ post)%string <> None).
    apply star_complete; [exact A2|].
    change (Re.plus_group is_digit (Re.match_here [])
              (id ++ post)%string <> None).
    apply plus_complete; [exact N | exact A|]. simpl. discriminate. }
  destruct (Re.match_here
              [Re.Star is_space; Re.Lit ":"; Re.Star is_space;
               Re.GroupPlus is_digit]
              (ws1 ++ ":" ++ ws2 ++ id ++ post)%string) as [g|] eqn:G;
    [|congruence].
  assert (L : Re.match_here
                (Re.lits quoted_poiId ++
                 [Re.Star is_space; Re.Lit ":"; Re.Star is_space;
                  Re.GroupPlus is_digit])
                (quoted_poiId ++ ws1 ++ ":" ++ ws2 ++ id ++ post)%string
              = Some g).
  { apply lits_match. eexists. split; [reflexivity | exact G]. }
  rewrite L. discriminate.
Qed.

(** X12.  [fetch_poi_id_from_page] returns an identifier only for a 200
    page whose text holds the quoted key [poiId], optional white space, a
    colon, optional white space and one or more digits in a row.  The
    identifier is the whole run of digits found there, at the first place
    in the page where the pattern matches; and every 200 page holding such
    a place yields an identifier. *)
Theorem poi_id_is_the_number_after_the_first_key
  (is_space is_digit : ascii -> bool) (o : page_outcome) :
  (forall id,
     fetch_poi_id_from_page is_space is_digit o = Some id ->
     exists html pre ws1 ws2 post,
       o = Page 200 html
       /\ html =
          (pre ++ quoted_poiId ++ ws1 ++ ":" ++ ws2 ++ id ++ post)%string
       /\ Re.all_in is_space ws1 = true
       /\ Re.all_in is_space ws2 = true
       /\ id <> ""
       /\ Re.all_in is_digit id = true
       /\ Re.stops is_digit post = true
       /\ (forall pre' suf',
             html = (pre' ++ suf')%string ->
             (String.length pre' < String.length pre)%nat ->
             Re.match_here (poi_pattern is_space is_digit) suf' = None))
  /\ (forall pre ws1 ws2 id post,
        o = Page 200
              (pre ++ quoted_poiId ++ ws1 ++ ":" ++ ws2 ++ id ++ post)%string ->
        Re.all_in is_space ws1 = true ->
        Re.all_in is_space ws2 = true ->
        id <> "" ->
        Re.all_in is_digit id = true ->
        fetch_poi_id_from_page is_space is_digit o <> None).
Proof.
  split.
  - intros id H. destruct o as [e|status html]; [discriminate|].
    simpl in H. destruct (status =? 200) eqn:S; [|discriminate].
    apply Z.eqb_eq in S. subst status. simpl in H.
    destruct (search_sound _ _ _ H) as (pre & suf & E & M & Lm).
    destruct (poi_match_sound _ _ _ _ M)
      as (ws1 & ws2 & post & -> & A1 & A2 & N & A & St).
    exists html, pre, ws1, ws2, post.
    repeat split; assumption.
  - intros pre ws1 ws2 id post -> A1 A2 N A. simpl.
    apply search_complete. apply poi_match_complete; assumption.
Qed.

Lemma poi_id_witness :
  fetch_poi_id_from_page py_space py_digit
    (Page 200
       (String.append "{"
          (String.append quoted_poiId
             (String.append " : 49958175, "
                (String.append quoted_poiId ":7}")))))
  = Some "49958175"
  /\ exists html pre ws1 ws2 post,
       Page 200
         (String.append "{"
            (String.append quoted_poiId
               (String.append " : 49958175, "
                  (String.append quoted_poiId ":7}"))))
       = Page 200 html
       /\ html =
          (pre ++ quoted_poiId ++ ws1 ++ ":" ++ ws2 ++ "49958175" ++ post)%string
       /\ Re.all_in py_space ws1 = true
       /\ Re.all_in py_space ws2 = true
       /\ "49958175" <> ""
       /\ Re.all_in py_digit "49958175" = true
       /\ Re.stops py_digit post = true
       /\ (forall pre' suf',
             html = (pre' ++ suf')%string ->
             (String.length pre' < String.length pre)%nat ->
             Re.match_here (poi_pattern py_space py_digit) suf' = None).
Proof.
  split; [reflexivity|].
  apply (proj1 (poi_id_is_the_number_after_the_first_key py_space py_digit
                  (Page 200
                     (String.append "{"
                        (String.append quoted_poiId
                           (String.append " : 49958175, "
                              (String.append quoted_poiId ":7}"))))))).
  reflexivity.
Defined.

(** ** [main] *)





Lemma fetched_poi_id_nonempty (is_space is_digit : ascii -> bool)
  (page : page_outcome) (id : string) :
  fetch_poi_id_from_page is_space is_digit page = Some id -> id <> "".
Proof.
  destruct page as [e|status html]; [discriminate|]. simpl.
  destruct (status =? 200); [|discriminate]. simpl. intros H.
  destruct (search_sound _ _ _ H) as (pre & suf & _ & M & _).
  destruct (poi_match_sound _ _ _ _ M)
    as (ws1 & ws2 & post & _ & _ & _ & N & _).
  exact N.
Qed.

(** X14.  [main] gives up before building a spider exactly when no usable
    [--poi_id] is given (none, or an empty one) and the page look-up finds
    no identifier; an identifier from either source always leads to a
    fetch. *)
Theorem main_gives_up_exactly_without_identifier
  (is_space is_digit : ascii -> bool) (int_ok : string -> bool)
  (arg_poi_id : option string) (page : page_outcome)
  (max_pages : option Z) (script : list outcome) :
  main is_space is_digit int_ok arg_poi_id page max_pages script = NoPoiId
  <->
  (arg_poi_id = None \/ arg_poi_id = Some "")
  /\ fetch_poi_id_from_page is_space is_digit page = None.
Proof.
  assert (G : forall p,
             p <> "" ->
             (if String.eqb p "" then NoPoiId
              else
                match spider_fetch_comments (int_ok p) max_pages script with
                | Pending s => Unfinished s
                | Finished why s =>
                    match returned why s with
                    | None => Uncaught s
                    | Some total =>
                        if 0 <? total
                        then Done p s total (save_to_csv (comments_data s))
                        else Done p s total None
                    end
                end) <> NoPoiId).
  { intros p Hp. apply String.eqb_neq in Hp. rewrite Hp.
    destruct (spider_fetch_comments (int_ok p) max_pages script)
      as [s0|why s0]; [discriminate|].
    destruct (returned why s0) as [t|]; [|discriminate].
    destruct (0 <? t); discriminate. }
  assert (F : match fetch_poi_id_from_page is_space is_digit page with
              | Some poi_id =>
                  if String.eqb poi_id "" then NoPoiId
                  else
                    match
                      spider_fetch_comments (int_ok poi_id) max_pages script
                    with
                    | Pending s => Unfinished s
                    | Finished why s =>
                        match returned why s with
                        | None => Uncaught s
                        | Some total =>
                            if 0 <? total
                            then Done poi_id s total
                                   (save_to_csv (comments_data s))
                            else Done poi_id s total None
                        end
                    end
              | None => NoPoiId
              end = NoPoiId
              <-> fetch_poi_id_from_page is_space is_digit page = None).
  { destruct (fetch_poi_id_from_page is_space is_digit page) as [id|] eqn:E.
    - split; [|discriminate]. intros H. exfalso.
      apply (G id); [|exact H].
      eapply fetched_poi_id_nonempty; exact E.
    - split; reflexivity. }
  unfold main, resolve_poi_id.
  destruct arg_poi_id as [p|].
  - destruct (String.eqb p "") eqn:Ep; simpl.
    + apply String.eqb_eq in Ep. subst p. rewrite F.
      split; [intros H; split; [right; reflexivity | exact H]|].
      intros [_ H]. exact H.
    + split.
      * intros H. exfalso. apply (G p); [|exact H].
        apply String.eqb_neq. exact Ep.
      * intros [[H|H] _]; [discriminate|].
        injection H as ->. discriminate Ep.
  - rewrite F. split; [intros H; split; [left; reflexivity | exact H]|].
    intros [_ H]. exact H.
Qed.

(** No [--poi_id], and the page answers 404. *)
Lemma main_gives_up_witness :
  ((@None string = None \/ None = Some "")
   /\ fetch_poi_id_from_page py_space py_digit (Page 404 "") = None)
  /\ main py_space py_digit (fun _ => true) None (Page 404 "") None
       [page_of (JList [review]) (JInt 1)]
     = NoPoiId.
Proof.
  split; [split; [left; reflexivity | reflexivity]|].
  apply (proj2 (main_gives_up_exactly_without_identifier
                  py_space py_digit (fun _ => true) None (Page 404 "") None
                  [page_of (JList [review]) (JInt 1)])).
  split; [left; reflexivity | reflexivity].
Defined.

(** A 500, then a timeout: the run is about to post again and has slept
    after each request. *)
Lemma requests_and_sleeps_witness :
  fetch_comments None [http_500; PostRaises timeout_error] =
  Pending (mkSession 2 0 1 [] (JInt 0) true
             [Request 1; Sleep (Seconds 3); Request 2; Sleep (Seconds 5)])
  /\ pace true
       [Request 1; Sleep (Seconds 3); Request 2; Sleep (Seconds 5)]
     = Some true.
Proof.
  split; [reflexivity|].
  apply (proj1 (proj2 (requests_and_sleeps_take_turns None
                         [http_500; PostRaises timeout_error]))
           (mkSession 2 0 1 [] (JInt 0) true
              [Request 1; Sleep (Seconds 3); Request 2; Sleep (Seconds 5)])).
  reflexivity.
Defined.
